(** * Reducers of the thrift analytics clients (thrift/clients.py)

    A shallow embedding of the result-reshaping code of [AccessStats] and
    [PublicationStats]: the value returned by [json.loads] is a tree of
    Python objects, the reducers fold it with subscripts, [.get], [in],
    [int], [+=] and [sorted], and every one of these can raise.  The
    embedding keeps the exceptions (an error monad), the insertion order of
    the dicts the reducers build (association lists, as CPython 3.7+ keeps
    them) and the clock the year window is anchored to (an explicit
    [date] argument standing for [date.today()]).  Where Python 2 and 3
    differ the embedding follows Python 3: unorderable objects raise
    [TypeError] under [<]. *)

From Stdlib Require Import ZArith List String Ascii Bool Lia.
From Stdlib Require Import Sorting.Sorted Sorting.Permutation Lists.Finite.
From Stdlib Require Import Structures.OrdersEx.
From Stdlib Require Import Floats.SpecFloat.
From Stdlib Require Import Numbers.DecimalString Numbers.DecimalZ.
From Stdlib Require Import Numbers.DecimalPos.
Import ListNotations.

Local Open Scope string_scope.
Local Open Scope Z_scope.

(** ** Python objects and builtins *)

Module Py.

(** The exceptions the reducers can meet.  [KeyError] carries the key. *)
Inductive exn : Type :=
| KeyError (k : string)
| IndexError
| TypeError
| AttributeError
| ValueError
| OverflowError.

Inductive result (A : Type) : Type :=
| Ok (a : A)
| Raise (e : exn).
Arguments Ok {A} a.
Arguments Raise {A} e.

Definition bind {A B} (m : result A) (k : A -> result B) : result B :=
  match m with
  | Ok a => k a
  | Raise e => Raise e
  end.

Declare Scope py_scope.
Delimit Scope py_scope with py.
Notation "x <- m ;; k" := (bind m (fun x => k))
  (at level 61, m at next level, right associativity) : py_scope.
Local Open Scope py_scope.

(** What [json.loads] returns: [None], [bool], [int], [float] (a binary64,
    as the standard library's [spec_float]), [str] (the string of its UTF-8
    bytes; equality and order of the bytes are those of the code points),
    [list] and [dict] with [str] keys in insertion order. *)
#[warning="-register-all"] Inductive value : Type :=
| VNone
| VBool (b : bool)
| VInt (z : Z)
| VFloat (f : spec_float)
| VStr (s : string)
| VList (l : list value)
| VDict (d : list (string * value)).

(** A dict with [str] keys: at most one entry per key, in insertion order. *)
Definition pydict := list (string * value).

Fixpoint dict_get {A} (k : string) (d : list (string * A)) : option A :=
  match d with
  | [] => None
  | (k', v) :: d' => if String.eqb k k' then Some v else dict_get k d'
  end.

Definition dict_mem {A} (k : string) (d : list (string * A)) : bool :=
  match dict_get k d with Some _ => true | None => false end.

(** [d[k] = v]: an existing key keeps its place, a new one goes last. *)
Fixpoint dict_set {A} (k : string) (v : A) (d : list (string * A))
  : list (string * A) :=
  match d with
  | [] => [(k, v)]
  | (k', v') :: d' =>
      if String.eqb k k' then (k, v) :: d' else (k', v') :: dict_set k v d'
  end.

(** [{k: v for ...}]: the entries are stored one after the other. *)
Definition dict_comp {A} (kvs : list (string * A)) : list (string * A) :=
  fold_left (fun d kv => dict_set (fst kv) (snd kv) d) kvs [].

(** [obj[k]] for a [str] subscript. *)
Definition getitem (obj : value) (k : string) : result value :=
  match obj with
  | VDict d =>
      match dict_get k d with
      | Some v => Ok v
      | None => Raise (KeyError k)
      end
  | _ => Raise TypeError
  end.

(** [obj.get(k, default)]: only a dict has the method. *)
Definition get (obj : value) (k : string) (default : value) : result value :=
  match obj with
  | VDict d =>
      match dict_get k d with
      | Some v => Ok v
      | None => Ok default
      end
  | _ => Raise AttributeError
  end.

(** The characters of a [str]: a UTF-8 continuation byte (10xxxxxx) stays
    with the character it continues. *)
Definition is_continuation (c : ascii) : bool :=
  let n := N_of_ascii c in (128 <=? n)%N && (n <? 192)%N.

Fixpoint chars (s : string) : list string :=
  match s with
  | EmptyString => []
  | String c s' =>
      match chars s' with
      | [] => [String c EmptyString]
      | t :: ts =>
          match t with
          | String c' _ =>
              if is_continuation c' then String c t :: ts
              else String c EmptyString :: t :: ts
          | EmptyString => String c EmptyString :: ts
          end
      end
  end.

(** [for x in obj]: the items the loop sees.  A dict yields its keys. *)
Definition iter (obj : value) : result (list value) :=
  match obj with
  | VList l => Ok l
  | VDict d => Ok (map (fun kv => VStr (fst kv)) d)
  | VStr s => Ok (map VStr (chars s))
  | _ => Raise TypeError
  end.

(** [len(obj)]. *)
Definition len (obj : value) : result Z :=
  match obj with
  | VList l => Ok (Z.of_nat (List.length l))
  | VDict d => Ok (Z.of_nat (List.length d))
  | VStr s => Ok (Z.of_nat (List.length (chars s)))
  | _ => Raise TypeError
  end.

(** [obj[0]]: a dict from [json.loads] has no key [0]. *)
Definition getitem0 (obj : value) : result value :=
  match obj with
  | VList (x :: _) => Ok x
  | VList [] => Raise IndexError
  | VStr s =>
      match chars s with
      | c :: _ => Ok (VStr c)
      | [] => Raise IndexError
      end
  | VDict _ => Raise (KeyError "0")
  | _ => Raise TypeError
  end.

(** How a value keys a dict whose keys are all [str], as in [k in d] and
    [d[k]]: a [str] is looked up, a list or a dict is unhashable, every
    other object hashes and equals no [str], so that [k in d] is false. *)
Definition dict_key (k : value) : result (option string) :=
  match k with
  | VStr s => Ok (Some s)
  | VList _ | VDict _ => Raise TypeError
  | _ => Ok None
  end.

(** [str(i)] of an int: decimal digits, [-] for a negative one. *)
Definition str (i : Z) : string := NilZero.string_of_int (Z.to_int i).

(** [range(start, stop, -1)]. *)
Definition range_down (start stop : Z) : list Z :=
  map (fun k => start - Z.of_nat k) (seq 0 (Z.to_nat (start - stop))).

(** *** Numbers *)

Definition prec : Z := 53.
Definition emax : Z := 1024.

(** [int(f)] of a float truncates towards zero. *)
Definition int_of_float (f : spec_float) : result Z :=
  match f with
  | S754_zero _ => Ok 0
  | S754_finite s m e =>
      let a := if 0 <=? e then Z.pos m * 2 ^ e else Z.pos m / 2 ^ (- e) in
      Ok (if s then - a else a)
  | S754_infinity _ => Raise OverflowError
  | S754_nan => Raise ValueError
  end.

(** [float(z)] of an int rounds to nearest even; too large an int raises. *)
Definition float_of_int (z : Z) : result spec_float :=
  match binary_normalize prec emax z 0 false with
  | S754_infinity _ => Raise OverflowError
  | f => Ok f
  end.

Definition as_int (v : value) : option Z :=
  match v with
  | VInt z => Some z
  | VBool b => Some (Z.b2z b)
  | _ => None
  end.

(** [a + b].  A bool counts as the int 0 or 1.  The reducers only add to
    a number, where [a += b] is [a + b]. *)
Definition add (a b : value) : result value :=
  match a, b with
  | VStr s, VStr t => Ok (VStr (s ++ t))
  | VList l, VList m => Ok (VList (l ++ m))
  | VFloat f, VFloat g => Ok (VFloat (SFadd prec emax f g))
  | VFloat f, _ =>
      match as_int b with
      | Some z => g <- float_of_int z ;; Ok (VFloat (SFadd prec emax f g))
      | None => Raise TypeError
      end
  | _, VFloat g =>
      match as_int a with
      | Some z => f <- float_of_int z ;; Ok (VFloat (SFadd prec emax f g))
      | None => Raise TypeError
      end
  | _, _ =>
      match as_int a, as_int b with
      | Some x, Some y => Ok (VInt (x + y))
      | _, _ => Raise TypeError
      end
  end.

(** The exact order of a float and an int; [None] for a NaN. *)
Definition float_compare_int (f : spec_float) (z : Z) : option comparison :=
  match f with
  | S754_nan => None
  | S754_infinity s => Some (if s then Lt else Gt)
  | S754_zero _ => Some (0 ?= z)
  | S754_finite s m e =>
      let a := if s then Z.neg m else Z.pos m in
      Some (if 0 <=? e then a * 2 ^ e ?= z else a ?= z * 2 ^ (- e))
  end.

(** The order of two numbers, [None] when one is not a number or is NaN. *)
Definition num_compare (a b : value) : option comparison :=
  match a, b with
  | VFloat f, VFloat g => SFcompare f g
  | VFloat f, _ =>
      match as_int b with
      | Some z => float_compare_int f z
      | None => None
      end
  | _, VFloat g =>
      match as_int a with
      | Some z => option_map CompOpp (float_compare_int g z)
      | None => None
      end
  | _, _ =>
      match as_int a, as_int b with
      | Some x, Some y => Some (x ?= y)
      | _, _ => None
      end
  end.

Definition is_num (v : value) : bool :=
  match v with
  | VBool _ | VInt _ | VFloat _ => true
  | _ => false
  end.

(** [a == b].  A NaN, which no JSON text of RFC 8259 denotes, equals
    nothing. *)
Fixpoint eqb (a b : value) {struct a} : bool :=
  match a, b with
  | VNone, VNone => true
  | VStr s, VStr t => String.eqb s t
  | VList la, VList lb =>
      (fix all2 (la lb : list value) {struct la} : bool :=
         match la, lb with
         | [], [] => true
         | x :: la', y :: lb' => eqb x y && all2 la' lb'
         | _, _ => false
         end) la lb
  | VDict da, VDict db =>
      Nat.eqb (List.length da) (List.length db) &&
      (fix sub (da : list (string * value)) : bool :=
         match da with
         | [] => true
         | (k, v) :: da' =>
             match dict_get k db with
             | Some w => eqb v w && sub da'
             | None => false
             end
         end) da
  | _, _ =>
      if is_num a && is_num b
      then match num_compare a b with Some Eq => true | _ => false end
      else false
  end.

(** [a < b]: numbers, strings and lists are ordered among themselves, every
    other pair is unorderable. *)
Fixpoint lt (a b : value) {struct a} : result bool :=
  match a, b with
  | VStr s, VStr t => Ok (String.ltb s t)
  | VList la, VList lb =>
      (fix lex (la lb : list value) {struct la} : result bool :=
         match la, lb with
         | [], [] => Ok false
         | [], _ :: _ => Ok true
         | _ :: _, [] => Ok false
         | x :: la', y :: lb' => if eqb x y then lex la' lb' else lt x y
         end) la lb
  | _, _ =>
      if is_num a && is_num b
      then Ok (match num_compare a b with Some Lt => true | _ => false end)
      else Raise TypeError
  end.

(** *** Loops and sorting *)

(** [for x in xs: s = body(s, x)], stopping at the first exception. *)
Fixpoint for_each {A S} (body : S -> A -> result S) (xs : list A) (s : S)
  : result S :=
  match xs with
  | [] => Ok s
  | x :: xs' => s' <- body s x ;; for_each body xs' s'
  end.

Section Sorting.
Context {A : Type} (less : A -> A -> result bool).

(** [x] goes in front of the first element that is not below it. *)
Fixpoint insert (x : A) (l : list A) : result (list A) :=
  match l with
  | [] => Ok [x]
  | y :: l' =>
      b <- less y x ;;
      if b then (r <- insert x l' ;; Ok (y :: r)) else Ok (x :: l)
  end.

(** [sorted(l)]: a stable sort that only asks [<].  Where [<] is a strict
    total order on the elements every stable sort returns this list. *)
Fixpoint sorted (l : list A) : result (list A) :=
  match l with
  | [] => Ok []
  | x :: l' => r <- sorted l' ;; insert x r
  end.

(** [sorted(l, reverse=True)]: reversed, sorted, reversed again. *)
Definition sorted_reverse (l : list A) : result (list A) :=
  r <- sorted (rev l) ;; Ok (rev r).
End Sorting.

(** [a < b] for two [(key, value)] tuples out of [dict.items()]. *)
Definition item_lt (a b : string * value) : result bool :=
  if String.eqb (fst a) (fst b) then lt (snd a) (snd b)
  else Ok (String.ltb (fst a) (fst b)).

End Py.

Import Py.
Local Open Scope py_scope.

(** [date.today()]: the reading of the wall clock at the call. *)
Record date : Type := mkdate { year : Z; month : Z; day : Z }.

(** ** class AccessStats *)

Module AccessStats.

Section Client.
(** [int(s)] of a [str], a builtin the reducers reach only through
    [int(...['value'])]; its parser is left open. *)
Variable int_of_str : string -> result Z.

(** [json.loads(self.client.search(json.dumps(body), query_parameters))]:
    one round trip to the backend. *)
Variable search : value -> list (string * string) -> result value.

(** [int(obj)]. *)
Definition int (obj : value) : result Z :=
  match obj with
  | VInt z => Ok z
  | VBool b => Ok (Z.b2z b)
  | VFloat f => int_of_float f
  | VStr s => int_of_str s
  | _ => Raise TypeError
  end.

(** [int(access_year[name]['value'])]. *)
Definition metric (access_year : value) (name : string) : result value :=
  m <- getitem access_year name ;;
  v <- getitem m "value" ;;
  z <- int v ;;
  Ok (VInt z).

(** The list appended for one access-year bucket. *)
Definition lifetime_row (publication_year access_year : value)
  : result value :=
  pk <- getitem publication_year "key" ;;
  ak <- getitem access_year "key" ;;
  html <- metric access_year "access_html" ;;
  abstract <- metric access_year "access_abstract" ;;
  pdf <- metric access_year "access_pdf" ;;
  epdf <- metric access_year "access_epdf" ;;
  total <- metric access_year "access_total" ;;
  Ok (VList [pk; ak; html; abstract; pdf; epdf; total]).

Definition lifetime_inner (publication_year : value)
  (data : list value) (access_year : value) : result (list value) :=
  row <- lifetime_row publication_year access_year ;;
  Ok (data ++ [row])%list.

Definition lifetime_outer (data : list value) (publication_year : value)
  : result (list value) :=
  a <- getitem publication_year "access_year" ;;
  b <- getitem a "buckets" ;;
  access_years <- iter b ;;
  for_each (lifetime_inner publication_year) access_years data.

Definition _compute_access_lifetime (query_result : value)
  : result (list value) :=
  let data := [] in
  a <- getitem query_result "aggregations" ;;
  p <- getitem a "publication_year" ;;
  b <- getitem p "buckets" ;;
  publication_years <- iter b ;;
  data <- for_each lifetime_outer publication_years data ;;
  sorted lt data.

Definition sum_of (field : string) : value :=
  VDict [("sum", VDict [("field", VStr field)])].

Definition by_access_total (field : string) : value :=
  VDict [("field", VStr field); ("size", VInt 0);
         ("order", VDict [("access_total", VStr "desc")])].

Definition access_lifetime_body (issn collection : string) : value :=
  VDict [
    ("query", VDict [("bool", VDict [("must", VList [
       VDict [("match", VDict [("collection", VStr collection)])];
       VDict [("match", VDict [("issn", VStr issn)])]])])]);
    ("size", VInt 0);
    ("aggs", VDict [("publication_year", VDict [
       ("terms", by_access_total "publication_year");
       ("aggs", VDict [
          ("access_total", sum_of "access_total");
          ("access_year", VDict [
             ("terms", by_access_total "access_year");
             ("aggs", VDict [
                ("access_total", sum_of "access_total");
                ("access_abstract", sum_of "access_abstract");
                ("access_epdf", sum_of "access_epdf");
                ("access_html", sum_of "access_html");
                ("access_pdf", sum_of "access_pdf")])])])])])].

(** The reduction runs whatever [raw] is; [raw] only picks what is
    returned. *)
Definition access_lifetime (issn collection : string) (raw : bool)
  : result value :=
  let body := access_lifetime_body issn collection in
  let query_parameters := [("size", "0")] in
  query_result <- search body query_parameters ;;
  computed <- _compute_access_lifetime query_result ;;
  Ok (if raw then query_result else VList computed).
End Client.

End AccessStats.

(** ** class PublicationStats *)

Module PublicationStats.

(** What the two count methods return: the metric itself, or the list of
    [(year, count)] tuples. *)
Inductive counts : Type :=
| Scalar (v : value)
| Series (l : list (string * value)).

Definition no_langs : pydict :=
  [("pt", VInt 0); ("en", VInt 0); ("es", VInt 0); ("other", VInt 0)].

(** [langs[slot] += doc_count]. *)
Definition langs_add (langs : pydict) (slot : string) (language : value)
  : result pydict :=
  match dict_get slot langs with
  | None => Raise (KeyError slot)
  | Some n =>
      c <- getitem language "doc_count" ;;
      s <- add n c ;;
      Ok (dict_set slot s langs)
  end.

(** The body of [for language in item['languages']['buckets']]. *)
Definition language_step (langs : pydict) (language : value)
  : result pydict :=
  key <- getitem language "key" ;;
  k <- dict_key key ;;
  match k with
  | Some s =>
      if dict_mem s langs then langs_add langs s language
      else langs_add langs "other" language
  | None => langs_add langs "other" language
  end.

(** The body of the loop over the year buckets: [continue] unless
    [item['key'] in years], which only a [str] key can be. *)
Definition languages_year_step (years : pydict) (item : value)
  : result pydict :=
  key <- getitem item "key" ;;
  k <- dict_key key ;;
  match k with
  | Some s =>
      if dict_mem s years then
        let langs := no_langs in
        l <- getitem item "languages" ;;
        b <- getitem l "buckets" ;;
        languages <- iter b ;;
        langs <- for_each language_step languages langs ;;
        Ok (dict_set s (VDict langs) years)
      else Ok years
  | None => Ok years
  end.

(** [query_result['aggregations']['publication_year']['buckets']], as the
    loop iterates it. *)
Definition year_buckets (query_result : value) : result (list value) :=
  a <- getitem query_result "aggregations" ;;
  p <- getitem a "publication_year" ;;
  b <- getitem p "buckets" ;;
  iter b.

(** [{str(i): zero for i in range(year, year-years, -1)}]. *)
Definition window (today : date) (years : Z) (zero : value) : pydict :=
  let year := year today in
  dict_comp (map (fun i => (str i, zero)) (range_down year (year - years))).

Definition _compute_documents_languages_by_year
  (today : date) (query_result : value) (years : Z) : result pydict :=
  let years := window today years (VDict no_langs) in
  items <- year_buckets query_result ;;
  for_each languages_year_step items years.

Definition articles_year_step (years : pydict) (item : value)
  : result pydict :=
  key <- getitem item "key" ;;
  k <- dict_key key ;;
  match k with
  | Some s =>
      if dict_mem s years then
        v <- get item "doc_count" (VInt 0) ;;
        Ok (dict_set s v years)
      else Ok years
  | None => Ok years
  end.

(** [[(k, v) for k, v in sorted(years.items(), reverse=True)]]. *)
Definition sorted_items (years : pydict) : result (list (string * value)) :=
  sorted_reverse item_lt years.

Definition _compute_number_of_articles_by_year
  (today : date) (query_result : value) (years : Z) : result counts :=
  if years =? 0 then
    a <- getitem query_result "aggregations" ;;
    i <- getitem a "id" ;;
    v <- getitem i "value" ;;
    Ok (Scalar v)
  else
    let years := window today years (VInt 0) in
    items <- year_buckets query_result ;;
    years <- for_each articles_year_step items years ;;
    l <- sorted_items years ;;
    Ok (Series l).

Definition issues_year_step (years : pydict) (item : value)
  : result pydict :=
  key <- getitem item "key" ;;
  k <- dict_key key ;;
  match k with
  | Some s =>
      if dict_mem s years then
        i <- get item "issue" (VDict []) ;;
        v <- get i "value" (VInt 0) ;;
        Ok (dict_set s v years)
      else Ok years
  | None => Ok years
  end.

Definition _compute_number_of_issues_by_year
  (today : date) (query_result : value) (years : Z) : result counts :=
  if years =? 0 then
    a <- getitem query_result "aggregations" ;;
    i <- getitem a "issue" ;;
    v <- getitem i "value" ;;
    Ok (Scalar v)
  else
    let years := window today years (VInt 0) in
    items <- year_buckets query_result ;;
    years <- for_each issues_year_step items years ;;
    l <- sorted_items years ;;
    Ok (Series l).

Definition _compute_first_included_document_by_journal
  (query_result : value) : result value :=
  h <- get query_result "hits" (VDict [("hits", VList [])]) ;;
  hh <- get h "hits" (VList []) ;;
  n <- len hh ;;
  if n =? 0 then Ok VNone
  else
    h <- getitem query_result "hits" ;;
    hh <- getitem h "hits" ;;
    first <- getitem0 hh ;;
    get first "_source" VNone.

Definition _compute_last_included_document_by_journal
  (query_result : value) : result value :=
  h <- get query_result "hits" (VDict [("hits", VList [])]) ;;
  hh <- get h "hits" (VList []) ;;
  n <- len hh ;;
  if n =? 0 then Ok VNone
  else
    h <- getitem query_result "hits" ;;
    hh <- getitem h "hits" ;;
    first <- getitem0 hh ;;
    get first "_source" VNone.

(** *** The queries and the public methods *)

Definition matching (field : string) (v : value) : value :=
  VDict [("match", VDict [(field, v)])].

Definition must (clauses : list value) : value :=
  VDict [("bool", VDict [("must", VList clauses)])].

Definition cardinality (field : string) : value :=
  VDict [("cardinality", VDict [("field", VStr field)])].

(** The [publication_year] terms aggregation of the three by-year queries:
    [size] is the [years] argument itself. *)
Definition by_year (years : Z) (aggs : pydict) : value :=
  VDict [("publication_year", VDict [
     ("terms", VDict [("field", VStr "publication_year");
                      ("size", VInt years);
                      ("order", VDict [("_term", VStr "desc")])]);
     ("aggs", VDict aggs)])].

Definition documents_languages_by_year_body
  (issn collection : string) (years : Z) : value :=
  VDict [
    ("query", VDict [("filtered", VDict [("query",
       must [matching "issn" (VStr issn);
             matching "collection" (VStr collection)])])]);
    ("aggs", by_year years
       [("languages", VDict [("terms",
          VDict [("field", VStr "languages"); ("size", VInt 0)])])])].

(** [document_types] is a list, empty for [None]; [type], below, a [str]
    or [None]. *)
Definition number_of_articles_by_year_body
  (issn collection : string) (document_types : list value) (years : Z)
  : value :=
  let filtered :=
    [("query", must [matching "issn" (VStr issn);
                     matching "collection" (VStr collection)])] in
  let filtered :=
    match document_types with
    | [] => filtered
    | _ :: _ =>
        dict_set "filter"
          (VDict [("query", VDict [("bool", VDict [("should",
             VList (map (matching "document_type") document_types))])])])
          filtered
    end in
  let aggs := VDict [("id", cardinality "id")] in
  let aggs :=
    if negb (years =? 0) then by_year years [("id", cardinality "id")]
    else aggs in
  VDict [("query", VDict [("filtered", VDict filtered)]); ("aggs", aggs)].

Definition number_of_issues_by_year_body
  (issn collection : string) (years : Z) (type : option string) : value :=
  let clauses :=
    [matching "issn" (VStr issn); matching "collection" (VStr collection)] in
  let clauses :=
    match type with
    | Some (String c t) =>
        (clauses ++ [matching "issue_type" (VStr (String c t))])%list
    | _ => clauses
    end in
  let aggs := VDict [("issue", cardinality "issue")] in
  let aggs :=
    if negb (years =? 0) then by_year years [("issue", cardinality "issue")]
    else aggs in
  VDict [("query", must clauses); ("aggs", aggs)].

Definition regular_issues (issn collection : string) : value :=
  must [matching "collection" (VStr collection);
        matching "issn" (VStr issn);
        matching "issue_type" (VStr "regular")].

Definition by_publication_date (order : string) : value :=
  VList [VDict [("publication_date", VDict [("order", VStr order)])]].

Definition first_included_document_by_journal_body
  (issn collection : string) : value :=
  VDict [
    ("query", VDict [("filtered",
       VDict [("query", regular_issues issn collection)])]);
    ("sort", by_publication_date "asc")].

Definition last_included_document_by_journal_body
  (issn collection : string) : value :=
  VDict [
    ("query", VDict [("filtered", VDict [
       ("query", regular_issues issn collection);
       ("filter",
        VDict [("exists", VDict [("field", VStr "publication_date")])])])]);
    ("sort", by_publication_date "desc")].

Section Client.
(** [json.loads(self.client.search('article', json.dumps(body),
    query_parameters))]: one round trip to the backend. *)
Variable search : string -> value -> list (string * string) -> result value.

(** The wall clock the reducers read. *)
Variable today : date.

Definition documents_languages_by_year
  (issn collection : string) (years : Z) : result pydict :=
  let body := documents_languages_by_year_body issn collection years in
  query_result <- search "article" body [("size", "0")] ;;
  _compute_documents_languages_by_year today query_result years.

Definition number_of_articles_by_year
  (issn collection : string) (document_types : list value) (years : Z)
  : result counts :=
  let body :=
    number_of_articles_by_year_body issn collection document_types years in
  query_result <- search "article" body [("size", "0")] ;;
  _compute_number_of_articles_by_year today query_result years.

Definition number_of_issues_by_year
  (issn collection : string) (years : Z) (type : option string)
  : result counts :=
  let body := number_of_issues_by_year_body issn collection years type in
  query_result <- search "article" body [("size", "0")] ;;
  _compute_number_of_issues_by_year today query_result years.

Definition first_included_document_by_journal
  (issn collection : string) : result value :=
  let body := first_included_document_by_journal_body issn collection in
  query_result <- search "article" body [("size", "1")] ;;
  _compute_first_included_document_by_journal query_result.

Definition last_included_document_by_journal
  (issn collection : string) : result value :=
  let body := last_included_document_by_journal_body issn collection in
  query_result <- search "article" body [("size", "1")] ;;
  _compute_last_included_document_by_journal query_result.
End Client.

End PublicationStats.

(** ** The shape of a backend response

    What the claims about the reducers speak of: the buckets of a terms
    aggregation, the bucket that decides a year's entry, the year window. *)

Module Response.

(** A bucket whose [key] can be looked up in a dict. *)
Definition keyed (item : value) : bool :=
  match getitem item "key" with
  | Ok k => match dict_key k with Ok _ => true | Raise _ => false end
  | Raise _ => false
  end.

(** The bucket's key is the [str] [s]. *)
Definition has_key (s : string) (item : value) : bool :=
  match getitem item "key" with
  | Ok (VStr t) => String.eqb s t
  | _ => false
  end.

(** The last bucket of the response with key [s], if any. *)
Fixpoint last_bucket (s : string) (items : list value) : option value :=
  match items with
  | [] => None
  | item :: rest =>
      match last_bucket s rest with
      | Some b => Some b
      | None => if has_key s item then Some item else None
      end
  end.

(** The years [y], [y - 1], ..., [y - n + 1]. *)
Definition year_window (y n : Z) : list Z :=
  map (fun k => y - Z.of_nat k) (seq 0 (Z.to_nat n)).

(** The entries of a year series: one per window year, taken from the last
    bucket of that year, [zero] where the response has none. *)
Definition series (entry : value -> value) (zero : value)
  (items : list value) (today : date) (n : Z) : pydict :=
  map (fun i =>
         (str i,
          match last_bucket (str i) items with
          | Some item => entry item
          | None => zero
          end))
      (year_window (year today) n).

(** A bucket whose key is the [str] of a window year. *)
Definition in_window (today : date) (n : Z) (item : value) : bool :=
  existsb (fun i => has_key (str i) item) (year_window (year today) n).

(** The loop body the three by-year reducers share: [f] computes the entry
    of a bucket whose key is in [years]. *)
Definition year_step (f : value -> result value) (years : pydict)
  (item : value) : result pydict :=
  key <- getitem item "key" ;;
  k <- dict_key key ;;
  match k with
  | Some s =>
      if dict_mem s years then v <- f item ;; Ok (dict_set s v years)
      else Ok years
  | None => Ok years
  end.

(** Keys in descending order, compared as strings. *)
Definition descending (l : list (string * value)) : Prop :=
  StronglySorted (fun a b => String.ltb (fst b) (fst a) = true) l.

(** *** The entries the three loops store *)

(** [item.get('doc_count', 0)]. *)
Definition articles_entry (item : value) : result value :=
  get item "doc_count" (VInt 0).

(** [item.get('issue', {}).get('value', 0)]. *)
Definition issues_entry (item : value) : result value :=
  i <- get item "issue" (VDict []) ;; get i "value" (VInt 0).

(** The [langs] dict of a year bucket. *)
Definition languages_entry (item : value) : result value :=
  l <- getitem item "languages" ;;
  b <- getitem l "buckets" ;;
  languages <- iter b ;;
  langs <- for_each PublicationStats.language_step languages
             PublicationStats.no_langs ;;
  Ok (VDict langs).

Definition langs_of (a b c d : Z) : pydict :=
  [("pt", VInt a); ("en", VInt b); ("es", VInt c); ("other", VInt d)].

(** A record with the four language slots and nothing else. *)
Definition is_breakdown (v : value) : Prop :=
  exists a b c d,
    v = VDict [("pt", a); ("en", b); ("es", c); ("other", d)].

(** *** What a year series has to cover *)

(** [out] has exactly the [n] window years as keys, [zero] for a year the
    response has no bucket of, and no other key. *)
Definition covers_window (zero : value) (items : list value) (today : date)
  (n : Z) (out : list (string * value)) : Prop :=
  Permutation (map str (year_window (year today) n)) (map fst out) /\
  List.length out = Z.to_nat n /\
  (forall i, year today - n < i <= year today ->
             last_bucket (str i) items = None -> In (str i, zero) out) /\
  (forall k v, In (k, v) out ->
               exists i, year today - n < i <= year today /\ k = str i).

Definition ascending (l : list (string * value)) : Prop :=
  StronglySorted (fun a b => String.ltb (fst a) (fst b) = true) l.

(** *** Sorting *)

(** What the sort needs of an earlier [x] and a later [y]: [y < x] is
    decided, and never holds together with [x < y]. *)
Definition comparable {A} (less : A -> A -> result bool) (x y : A) : Prop :=
  (exists b, less y x = Ok b) /\ (less y x = Ok true -> less x y = Ok false).

Definition then_compare (c d : comparison) : comparison :=
  match c with Eq => d | _ => c end.

Definition is_lt (c : comparison) : bool :=
  match c with Lt => true | _ => false end.

(** *** Count by year *)

(** The bucket's [doc_count], 0 without one. *)
Definition doc_count_of (item : value) : value :=
  match item with
  | VDict d =>
      match dict_get "doc_count" d with Some v => v | None => VInt 0 end
  | _ => VInt 0
  end.

(** The value of the bucket's nested metric [name], 0 when the bucket has
    no such sub-result or the sub-result no value. *)
Definition nested_metric (name : string) (item : value) : value :=
  match item with
  | VDict d =>
      match dict_get name d with
      | Some (VDict m) =>
          match dict_get "value" m with Some v => v | None => VInt 0 end
      | _ => VInt 0
      end
  | _ => VInt 0
  end.

(** A bucket of the issues query: keyed, its [issue], if any, a dict. *)
Definition issue_bucket (item : value) : bool :=
  keyed item &&
  match item with
  | VDict d =>
      match dict_get "issue" d with
      | Some (VDict _) | None => true
      | Some _ => false
      end
  | _ => false
  end.

(** The raw value of the top-level metric [name]. *)
Definition top_metric (name : string) (query_result : value) : result value :=
  a <- getitem query_result "aggregations" ;;
  m <- getitem a name ;;
  getitem m "value".

(** *** Languages by year *)

(** The document count of a language bucket, when it is an int. *)
Definition doc_count (language : value) : option Z :=
  match getitem language "doc_count" with
  | Ok v => as_int v
  | Raise _ => None
  end.

Definition language_bucket (language : value) : bool :=
  keyed language &&
  match doc_count language with Some _ => true | None => false end.

(** The language buckets of a year bucket. *)
Definition languages_of (item : value) : option (list value) :=
  match (l <- getitem item "languages" ;;
         b <- getitem l "buckets" ;;
         iter b) with
  | Ok ls => Some ls
  | Raise _ => None
  end.

Definition language_year_bucket (item : value) : bool :=
  keyed item &&
  match languages_of item with
  | Some ls => forallb language_bucket ls
  | None => false
  end.

(** The documents of the language buckets that satisfy [p]. *)
Fixpoint total (p : value -> bool) (ls : list value) : Z :=
  match ls with
  | [] => 0
  | l :: ls' =>
      (if p l then match doc_count l with Some z => z | None => 0 end
       else 0) + total p ls'
  end.

(** A language key that is none of [pt], [en], [es]. *)
Definition other_language (language : value) : bool :=
  negb (has_key "pt" language || has_key "en" language
        || has_key "es" language).

Definition breakdown (ls : list value) : value :=
  VDict [("pt", VInt (total (has_key "pt") ls));
         ("en", VInt (total (has_key "en") ls));
         ("es", VInt (total (has_key "es") ls));
         ("other", VInt (total other_language ls))].

Definition breakdown_of (item : value) : value :=
  match languages_of item with
  | Some ls => breakdown ls
  | None => VDict PublicationStats.no_langs
  end.

(** *** Document lookup *)

(** [hits.hits] of a response, when it is a list. *)
Definition hit_list (query_result : value) : option (list value) :=
  match (h <- getitem query_result "hits" ;; getitem h "hits") with
  | Ok (VList l) => Some l
  | _ => None
  end.

(** *** Access lifetime *)

Record LifetimePoint : Type := {
  publication_year : string;
  access_year : string;
  html_count : Z;
  abstract_count : Z;
  pdf_count : Z;
  epdf_count : Z;
  total_count : Z
}.

(** The list the reducer appends for a point. *)
Definition row_of (p : LifetimePoint) : value :=
  VList [VStr (publication_year p); VStr (access_year p);
         VInt (html_count p); VInt (abstract_count p); VInt (pdf_count p);
         VInt (epdf_count p); VInt (total_count p)].

(** (publication_year, access_year) strictly below, as strings. *)
Definition key_lt (p q : LifetimePoint) : Prop :=
  String.ltb (publication_year p) (publication_year q) = true \/
  (publication_year p = publication_year q /\
   String.ltb (access_year p) (access_year q) = true).

Definition point_key (p : LifetimePoint) : string * string :=
  (publication_year p, access_year p).

(** The order of two points as the rows compare: field by field. *)
Definition point_compare (p q : LifetimePoint) : comparison :=
  then_compare (String.compare (publication_year p) (publication_year q))
 (then_compare (String.compare (access_year p) (access_year q))
 (then_compare (html_count p ?= html_count q)
 (then_compare (abstract_count p ?= abstract_count q)
 (then_compare (pdf_count p ?= pdf_count q)
 (then_compare (epdf_count p ?= epdf_count q)
               (total_count p ?= total_count q)))))).

(** The record a hit stands for: its [_source], [None] without one. *)
Definition source_of (hit : value) : value :=
  match hit with
  | VDict f =>
      match dict_get "_source" f with Some s => s | None => VNone end
  | _ => VNone
  end.

Definition str_key (item : value) : option string :=
  match getitem item "key" with
  | Ok (VStr s) => Some s
  | _ => None
  end.

Section Points.
Variable int_of_str : string -> result Z.

(** The integer count of the metric [name] of an access-year bucket. *)
Definition count_of (access_year : value) (name : string) : option Z :=
  match (m <- getitem access_year name ;;
         v <- getitem m "value" ;;
         AccessStats.int int_of_str v) with
  | Ok z => Some z
  | Raise _ => None
  end.

Definition point_of (pk : string) (a : value) : option LifetimePoint :=
  match str_key a, count_of a "access_html", count_of a "access_abstract",
        count_of a "access_pdf", count_of a "access_epdf",
        count_of a "access_total" with
  | Some ak, Some h, Some ab, Some p, Some e, Some t =>
      Some {| publication_year := pk; access_year := ak; html_count := h;
              abstract_count := ab; pdf_count := p; epdf_count := e;
              total_count := t |}
  | _, _, _, _, _, _ => None
  end.

Fixpoint points_of_accesses (pk : string) (accesses : list value)
  : option (list LifetimePoint) :=
  match accesses with
  | [] => Some []
  | a :: rest =>
      match point_of pk a, points_of_accesses pk rest with
      | Some p, Some ps => Some (p :: ps)
      | _, _ => None
      end
  end.

Definition access_buckets (item : value) : option (list value) :=
  match (a <- getitem item "access_year" ;;
         b <- getitem a "buckets" ;;
         iter b) with
  | Ok l => Some l
  | Raise _ => None
  end.

(** One point per (publication-year bucket, access-year bucket) pair, in
    the order of the response. *)
Fixpoint points_of (items : list value) : option (list LifetimePoint) :=
  match items with
  | [] => Some []
  | item :: rest =>
      match str_key item, access_buckets item with
      | Some pk, Some accesses =>
          match points_of_accesses pk accesses, points_of rest with
          | Some ps, Some qs => Some (ps ++ qs)%list
          | _, _ => None
          end
      | _, _ => None
      end
  end.

Definition lifetime_points (query_result : value)
  : option (list LifetimePoint) :=
  match PublicationStats.year_buckets query_result with
  | Ok items => points_of items
  | Raise _ => None
  end.
End Points.

(** *** Reductions by name *)

Inductive reduction : Type :=
| AccessLifetime
| DocumentsLanguagesByYear
| NumberOfArticlesByYear
| NumberOfIssuesByYear
| FirstIncludedDocument
| LastIncludedDocument.

Inductive outcome : Type :=
| Rows (l : list value)
| Mapping (d : pydict)
| Count (c : PublicationStats.counts)
| Document (v : value).

(** One run of a reduction: the clock is read at the call. *)
Definition run (int_of_str : string -> result Z) (r : reduction)
  (clock : date) (query_result : value) (years : Z) : result outcome :=
  match r with
  | AccessLifetime =>
      l <- AccessStats._compute_access_lifetime int_of_str query_result ;;
      Ok (Rows l)
  | DocumentsLanguagesByYear =>
      d <- PublicationStats._compute_documents_languages_by_year
             clock query_result years ;;
      Ok (Mapping d)
  | NumberOfArticlesByYear =>
      c <- PublicationStats._compute_number_of_articles_by_year
             clock query_result years ;;
      Ok (Count c)
  | NumberOfIssuesByYear =>
      c <- PublicationStats._compute_number_of_issues_by_year
             clock query_result years ;;
      Ok (Count c)
  | FirstIncludedDocument =>
      v <- PublicationStats._compute_first_included_document_by_journal
             query_result ;;
      Ok (Document v)
  | LastIncludedDocument =>
      v <- PublicationStats._compute_last_included_document_by_journal
             query_result ;;
      Ok (Document v)
  end.

(** [size] of the [publication_year] terms aggregation of a query. *)
Definition year_buckets_size (body : value) : result value :=
  a <- getitem body "aggs" ;;
  p <- getitem a "publication_year" ;;
  t <- getitem p "terms" ;;
  getitem t "size".

End Response.

(** ** Sample responses *)

Module Examples.

(** 4 November 2026. *)
Definition clock : date := mkdate 2026 11 4.

(** An [int] that refuses every [str]. *)
Definition no_int_of_str (s : string) : result Z := Raise ValueError.

(** The floats [3.0] and [7.5]. *)
Definition three : spec_float := S754_finite false 6755399441055744 (-51).
Definition seven_and_a_half : spec_float :=
  S754_finite false 8444249301319680 (-50).

Definition aggregations (buckets : list value) : value :=
  VDict [("aggregations",
          VDict [("publication_year", VDict [("buckets", VList buckets)])])].

(** Articles: the current year, and a year long past. *)
Definition article_buckets : list value :=
  [VDict [("key", VStr "2026"); ("doc_count", VInt 7);
          ("id", VDict [("value", VInt 5)])];
   VDict [("key", VStr "2019"); ("doc_count", VInt 40);
          ("id", VDict [("value", VInt 40)])]].

(** Issues: data for the current year only, and a bucket two years back
    without its metric. *)
Definition issue_buckets : list value :=
  [VDict [("key", VStr "2026"); ("doc_count", VInt 31);
          ("issue", VDict [("value", VInt 4)])];
   VDict [("key", VStr "2024"); ("doc_count", VInt 2)]].

(** Languages: five documents in French among those of 2026. *)
Definition language_buckets : list value :=
  [VDict [("key", VStr "2026"); ("doc_count", VInt 20);
          ("languages", VDict [("buckets", VList [
             VDict [("key", VStr "pt"); ("doc_count", VInt 12)];
             VDict [("key", VStr "fr"); ("doc_count", VInt 5)];
             VDict [("key", VStr "en"); ("doc_count", VInt 3)]])])];
   VDict [("key", VStr "2019"); ("doc_count", VInt 1);
          ("languages", VDict [("buckets", VList [
             VDict [("key", VStr "es"); ("doc_count", VInt 1)]])])]].

Definition access (key : string) (html abstract pdf epdf total : value)
  : value :=
  VDict [("key", VStr key); ("doc_count", VInt 1);
         ("access_html", VDict [("value", html)]);
         ("access_abstract", VDict [("value", abstract)]);
         ("access_pdf", VDict [("value", pdf)]);
         ("access_epdf", VDict [("value", epdf)]);
         ("access_total", VDict [("value", total)])].

(** Two publication years, the later one first, as the backend orders them
    by accesses. *)
Definition lifetime_buckets : list value :=
  [VDict [("key", VStr "2021");
          ("access_year", VDict [("buckets", VList [
             access "2022" (VInt 2) (VInt 0) (VInt 1) (VInt 0) (VFloat three);
             access "2021" (VInt 1) (VInt 0) (VInt 0) (VInt 0) (VInt 1)])])];
   VDict [("key", VStr "2020");
          ("access_year", VDict [("buckets", VList [
             access "2021" (VFloat three) (VInt 0) (VInt 0) (VInt 0)
                    (VFloat seven_and_a_half)])])]].

Definition hits (l : list value) : value :=
  VDict [("hits", VDict [("total", VInt (Z.of_nat (List.length l)));
                         ("hits", VList l)])].

Definition document : value :=
  VDict [("code", VStr "S0001-37652016000100001");
         ("publication_date", VStr "2016-03")].

(** A backend that answers every query with [response]. *)
Definition answering (response : value)
  (index : string) (body : value) (parameters : list (string * string))
  : result value := Ok response.

End Examples.

(** * The tabulation scripts (publication/counts.py, publication/licenses.py)

    Both scripts read documents from the metadata service and write one
    quoted CSV row per document.  A document is an object of the metadata
    library; its attributes are taken as they come, any Python object. *)

(** ** More of Python *)

Module Text.

(** The double quote character. *)
Definition quote : ascii := "034"%char.

Definition crlf : string := String "013"%char (String "010"%char "").

(** The truth value of an object, as [if obj:] and [obj or ...] take it. *)
Definition truthy (v : value) : bool :=
  match v with
  | VNone => false
  | VBool b => b
  | VInt z => negb (z =? 0)
  | VFloat f => match f with S754_zero _ => false | _ => true end
  | VStr s => match s with EmptyString => false | String _ _ => true end
  | VList l => match l with [] => false | _ :: _ => true end
  | VDict d => match d with [] => false | _ :: _ => true end
  end.

(** [a or b]. *)
Definition or_else (a b : value) : value := if truthy a then a else b.

(** [sep.join(strings)]. *)
Fixpoint join_strs (sep : string) (l : list string) : string :=
  match l with
  | [] => ""
  | x :: l' =>
      match l' with
      | [] => x
      | _ :: _ => x ++ sep ++ join_strs sep l'
      end
  end.

(** The items of a sequence that has to hold [str] only. *)
Fixpoint strings_of (e : exn) (l : list value) : result (list string) :=
  match l with
  | [] => Ok []
  | VStr s :: l' => r <- strings_of e l' ;; Ok (s :: r)
  | _ :: _ => Raise e
  end.

(** [sep.join(obj)]: [obj] is iterated, an item that is no [str] is a
    [TypeError]. *)
Definition join (sep : string) (obj : value) : result string :=
  l <- iter obj ;;
  ss <- strings_of TypeError l ;;
  Ok (join_strs sep ss).

(** [s.replace(q, q + q)] for the double quote [q]: every double quote is
    doubled. *)
Fixpoint double_quotes (s : string) : string :=
  match s with
  | EmptyString => EmptyString
  | String c s' =>
      if Ascii.eqb c quote then String quote (String quote (double_quotes s'))
      else String c (double_quotes s')
  end.

(** The field [i] between two double quotes, its own double quotes
    doubled; only a [str] has [replace]. *)
Definition quoted (i : value) : result string :=
  match i with
  | VStr s => Ok (String quote (double_quotes s ++ String quote ""))
  | _ => Raise AttributeError
  end.

(** A [str] field as [quoted] writes it. *)
Definition quote_field (s : string) : string :=
  String quote (double_quotes s ++ String quote "").

(** [joined_line]: the quoted fields of [line], joined by commas. *)
Definition quote_join (line : list value) : result string :=
  qs <- for_each (fun acc i => q <- quoted i ;; Ok (acc ++ [q])%list) line [] ;;
  Ok (join_strs "," qs).

(** [obj[0:n]]. *)
Definition slice_to (n : nat) (obj : value) : result value :=
  match obj with
  | VStr s => Ok (VStr (String.concat "" (firstn n (chars s))))
  | VList l => Ok (VList (firstn n l))
  | _ => Raise TypeError
  end.

(** [s in t] for two [str]. *)
Fixpoint is_infix (s t : string) : bool :=
  String.prefix s t ||
  match t with
  | EmptyString => false
  | String _ t' => is_infix s t'
  end.

(** ['country' in obj]. *)
Definition has_country (obj : value) : result bool :=
  match obj with
  | VDict d => Ok (dict_mem "country" d)
  | VList l => Ok (existsb (eqb (VStr "country")) l)
  | VStr s => Ok (is_infix "country" s)
  | _ => Raise TypeError
  end.

End Text.

(** ** The documents of the metadata service *)

Module Document.

(** [data.journal]. *)
Record Journal : Type := {
  print_issn : value;
  electronic_issn : value;
  scielo_issn : value;
  title : value;
  subject_areas : value;
  current_status : value
}.

(** [data]. *)
Record Article : Type := {
  journal : Journal;
  collection_acronym : value;
  publisher_id : value;
  publication_date : value;
  document_type : value;
  normalized_affiliations : value;
  authors : value;
  start_page : value;
  end_page : value;
  citations : value;
  permissions : value
}.

(** What is written: a line printed, or text written to the output file. *)
Inductive output : Type :=
| Printed (line : string)
| Written (text : string).

End Document.

Import Text Document.

(** ** What the two scripts share *)

Module Dump.

Section Dumper.
(** [choices.THEMATIC_AREAS]. *)
Variable THEMATIC_AREAS : list string.

(** [s.lower()] of a [str]. *)
Variable lower : string -> string.

(** [datetime.datetime.now().isoformat()], the clock at the call. *)
Variable now : string.

(** [obj.lower()]: only a [str] has [lower]. *)
Definition lower_of (obj : value) : result string :=
match obj with
| VStr s => Ok (lower s)
| _ => Raise AttributeError
end.

(** [[i.lower() for i in obj]]. *)
Definition lowered (obj : value) : result (list string) :=
l <- iter obj ;;
for_each (fun acc i => s <- lower_of i ;; Ok (acc ++ [s])%list) l [].

(** The column of one thematic area: ['1'] when the journal has it. *)
Definition thematic_flag (data : Article) (area : string) : result value :=
let a := lower area in
ls <- lowered (subject_areas (journal data)) ;;
Ok (VStr (if existsb (String.eqb a) ls then "1" else "0")).

Definition thematic_flags (data : Article) : result (list value) :=
for_each (fun acc area => f <- thematic_flag data area ;;
                          Ok (acc ++ [f])%list)
         THEMATIC_AREAS [].

(** The ISSNs the journal has. *)
Definition issns_of (data : Article) : list value :=
let issns := [] in
let issns :=
  if truthy (print_issn (journal data))
  then (issns ++ [print_issn (journal data)])%list else issns in
if truthy (electronic_issn (journal data))
then (issns ++ [electronic_issn (journal data)])%list else issns.

(** [datetime.datetime.now().isoformat()[0:10]]. *)
Definition extraction_date : string :=
String.concat "" (firstn 10 (chars now)).

(** The columns both tabulations start with, up to [document type]. *)
Definition leading_names : list string :=
(["extraction date"; "study unit"; "collection"; "ISSN SciELO"; "ISSN's";
  "title at SciELO"; "title thematic areas"]
 ++ map (fun area => ("title is " ++ lower area)%string) THEMATIC_AREAS
 ++ ["title current status"; "document publishing ID (PID SciELO)";
     "document publishing year"; "document type"])%list.

Definition leading_fields (data : Article) : result (list value) :=
issns <- join ";" (VList (issns_of data)) ;;
areas <- join ";" (subject_areas (journal data)) ;;
flags <- thematic_flags data ;;
year <- slice_to 4 (publication_date data) ;;
Ok ([VStr extraction_date; VStr "documents"; collection_acronym data;
     scielo_issn (journal data); VStr issns; title (journal data);
     VStr areas]
    ++ flags
    ++ [current_status (journal data); publisher_id data; year;
        document_type data])%list.

(** [Dumper.write]: a line goes to the output file, closed by CR LF, or is
  printed when there is no file. *)
Definition write (to_file : bool) (line : string) : output :=
if to_file then Written (line ++ crlf) else Printed line.

(** [for item in self.items(): self.write(item)]: the generator formats a
  document, the row is written, then the next document is formatted; the
  first exception ends the run, what is written stays. *)
Fixpoint run (to_file : bool) (items : list (result string))
(out : list output) : list output * result unit :=
match items with
| [] => (out, Ok tt)
| Ok item :: rest => run to_file rest (out ++ [write to_file item])%list
| Raise e :: _ => (out, Raise e)
end.

(** [Dumper.items], given [fmt_csv] and [self._articlemeta.documents]: no
  ISSN at all asks once, for every journal. *)
Definition items (fmt_csv : Article -> result string)
(documents : value -> value -> list Article)
(collection : value) (issns : list value) : list (result string) :=
let issns := match issns with [] => [VNone] | _ :: _ => issns end in
flat_map (fun issn => map fmt_csv (documents collection issn)) issns.

(** [Dumper(collection, issns, output_file).run()]: the header is written
  when the object is made. *)
Definition dump (names : list string) (fmt_csv : Article -> result string)
(documents : value -> value -> list Article)
(collection : value) (issns : list value) (to_file : bool)
: list output * result unit :=
run to_file (items fmt_csv documents collection issns)
    [write to_file (join_strs "," names)].
End Dumper.

End Dump.

(** ** publication/counts.py *)

Module Counts.

Section Dumper.
Variable THEMATIC_AREAS : list string.
Variable lower : string -> string.
Variable now : string.
Variable int_of_str : string -> result Z.

(** [pages(first, last)]: any exception of the two conversions is caught. *)
Definition pages (first last : value) : Z :=
let pages :=
  match (l <- AccessStats.int int_of_str last ;;
         f <- AccessStats.int int_of_str first ;;
         Ok (l - f)) with
  | Ok p => p
  | Raise _ => 0
  end in
if 0 <=? pages then pages else 0.

Definition header : list string :=
(Dump.leading_names THEMATIC_AREAS lower
 ++ ["authors"; "0 authors"; "1 author"; "2 authors"; "3 authors";
     "4 authors"; "5 authors"; "+6 authors"; "pages"; "references"])%list.

(** One item of the comprehension over [data.normalized_affiliations]. *)
Definition country (acc : list string) (i : value) : result (list string) :=
b <- has_country i ;;
if b then
  c <- getitem i "country" ;;
  if negb (eqb c (VStr "undefined")) then
    c <- getitem i "country" ;;
    s <- Dump.lower_of lower c ;;
    Ok (acc ++ [s])%list
  else Ok acc
else Ok acc.

(** [countries]: computed, and never used. *)
Definition countries (data : Article) : result (list string) :=
if truthy (normalized_affiliations data) then
  l <- iter (normalized_affiliations data) ;;
  for_each country l []
else Ok [].

Definition flag (b : bool) : value := VStr (if b then "1" else "0").

(** The list [line] of [fmt_csv]. *)
Definition line (data : Article) : result (list value) :=
countries <- countries data ;;
tot_authors <- len (or_else (authors data) (VList [])) ;;
leading <- Dump.leading_fields THEMATIC_AREAS lower now data ;;
references <- len (or_else (citations data) (VList [])) ;;
Ok (leading
    ++ [VStr (str tot_authors);
        flag (tot_authors =? 0); flag (tot_authors =? 1);
        flag (tot_authors =? 2); flag (tot_authors =? 3);
        flag (tot_authors =? 4); flag (tot_authors =? 5);
        flag (6 <=? tot_authors);
        VStr (str (pages (start_page data) (end_page data)));
        VStr (str references)])%list.

Definition fmt_csv (data : Article) : result string :=
line <- line data ;;
quote_join line.

Definition dump := Dump.dump header fmt_csv.
End Dumper.

End Counts.

(** ** publication/licenses.py *)

Module Licenses.

Section Dumper.
Variable THEMATIC_AREAS : list string.
Variable lower : string -> string.
Variable now : string.

Definition header : list string :=
(Dump.leading_names THEMATIC_AREAS lower ++ ["license"])%list.

(** [perm]: [data.permissions.get('id' or '')] is [.get('id')]. *)
Definition license (data : Article) : result value :=
let perm := VStr "" in
if truthy (permissions data) then get (permissions data) "id" VNone
else Ok perm.

(** The list [line] of [fmt_csv]. *)
Definition line (data : Article) : result (list value) :=
leading <- Dump.leading_fields THEMATIC_AREAS lower now data ;;
perm <- license data ;;
Ok (leading ++ [perm])%list.

Definition fmt_csv (data : Article) : result string :=
line <- line data ;;
quote_join line.

Definition dump := Dump.dump header fmt_csv.
End Dumper.

End Licenses.

(** ** Reading a row back *)

Module Csv.

(** Where a reader of quoted fields stands: before a field, inside one, or
    after a quote that closes the field or starts a doubled quote. *)
Inductive state : Type := Before | Inside | After.

(** The fields of a row of quoted, comma-separated fields. *)
Fixpoint fields_from (st : state) (field : string) (s : string)
  : option (list string) :=
  match s with
  | EmptyString =>
      match st with
      | After => Some [field]
      | _ => None
      end
  | String c s' =>
      match st with
      | Before =>
          if Ascii.eqb c quote then fields_from Inside EmptyString s'
          else None
      | Inside =>
          if Ascii.eqb c quote then fields_from After field s'
          else fields_from Inside (field ++ String c "") s'
      | After =>
          if Ascii.eqb c quote
          then fields_from Inside (field ++ String quote "") s'
          else if Ascii.eqb c ","%char
               then option_map (cons field) (fields_from Before "" s')
               else None
      end
  end.

Definition fields (row : string) : option (list string) :=
  fields_from Before "" row.

(** The commas of a text: one less than the parts a reader cutting at
    every comma gets. *)
Fixpoint commas (s : string) : nat :=
  match s with
  | EmptyString => 0
  | String c s' => (if Ascii.eqb c ","%char then 1 else 0) + commas s'
  end.

End Csv.

(** ** Sample documents *)

Module Samples.

(** [lower] on the letters A to Z. *)
Definition lower_char (c : ascii) : ascii :=
  let n := N_of_ascii c in
  if (65 <=? n)%N && (n <=? 90)%N then ascii_of_N (n + 32) else c.

Fixpoint ascii_lower (s : string) : string :=
  match s with
  | EmptyString => EmptyString
  | String c s' => String (lower_char c) (ascii_lower s')
  end.

Definition areas : list string :=
  ["Health Sciences"; "Human Sciences"; "Linguistics, Letters and Arts"].

Definition now : string := "2026-11-04T10:31:07.120953".

Definition anais : Journal := {|
  print_issn := VStr "0001-3765";
  electronic_issn := VStr "1678-2690";
  scielo_issn := VStr "0001-3765";
  title := VStr "Anais da Academia Brasileira de Ciencias";
  subject_areas := VList [VStr "Health Sciences"; VStr "HUMAN SCIENCES"];
  current_status := VStr "current"
|}.

(** An article of two authors, pages 10 to 25, under a licence. *)
Definition article : Article := {|
  journal := anais;
  collection_acronym := VStr "scl";
  publisher_id := VStr "S0001-37652016000100010";
  publication_date := VStr "2016-03-10";
  document_type := VStr "research-article";
  normalized_affiliations :=
    VList [VDict [("index", VStr "A01"); ("country", VStr "Brazil")];
           VDict [("index", VStr "A02"); ("country", VStr "undefined")]];
  authors := VList [VDict [("surname", VStr "Souza")];
                    VDict [("surname", VStr "Lima")]];
  start_page := VStr "10";
  end_page := VStr "25";
  citations := VList [VDict []; VDict []; VDict []];
  permissions := VDict [("id", VStr "by/4.0"); ("text", VNone)]
|}.

(** The same article, titled with a comma and a quoted word, without
    authors, references or pages. *)
Definition bare_article : Article := {|
  journal := {|
    print_issn := VNone;
    electronic_issn := VStr "1678-2690";
    scielo_issn := VStr "1678-2690";
    title := VStr (String.concat (String Text.quote "")
                     ["Letters, "; "Arts"; " and more"]);
    subject_areas := VList [];
    current_status := VStr "deceased"
  |};
  collection_acronym := VStr "scl";
  publisher_id := VStr "S1678-26902001000100001";
  publication_date := VStr "2001";
  document_type := VStr "editorial";
  normalized_affiliations := VNone;
  authors := VNone;
  start_page := VNone;
  end_page := VStr "e1203";
  citations := VNone;
  permissions := VNone
|}.

(** The article under a licence record that has no [id]. *)
Definition unlicensed_article : Article := {|
  journal := anais;
  collection_acronym := VStr "scl";
  publisher_id := VStr "S0001-37652016000100011";
  publication_date := VStr "2016-03-10";
  document_type := VStr "research-article";
  normalized_affiliations := VNone;
  authors := VNone;
  start_page := VNone;
  end_page := VNone;
  citations := VNone;
  permissions := VDict [("text", VStr "All rights reserved")]
|}.

(** A metadata service of one journal. *)
Definition documents_of (docs : list Article) (collection issn : value)
  : list Article := docs.

(** An [int] that reads the decimal digits of a [str]. *)
Definition digits_int (s : string) : result Z :=
  match NilZero.int_of_string s with
  | Some d => Ok (Z.of_int d)
  | None => Raise ValueError
  end.

End Samples.

(** * Properties *)

Import Response PublicationStats.

(** ** Dicts *)

Section Dicts.
Context {A : Type}.
Implicit Types (d : list (string * A)) (k : string) (v : A).

Lemma dict_mem_in k v d : In (k, v) d -> dict_mem k d = true.
Proof.
  unfold dict_mem. induction d as [|[k' v'] d IH]; simpl; [tauto|].
  intros [E|H].
  - inversion E; subst. now rewrite String.eqb_refl.
  - destruct (String.eqb k k'); [reflexivity | auto].
Qed.

Lemma dict_mem_keys k d : dict_mem k d = true <-> In k (map fst d).
Proof.
  unfold dict_mem. induction d as [|[k' v'] d IH]; simpl.
  - split; [discriminate | tauto].
  - destruct (String.eqb_spec k k') as [->|N].
    + split; auto.
    + rewrite IH. split; [auto | intros [E|H]; [congruence | auto]].
Qed.

Lemma dict_set_absent k v d :
  dict_mem k d = false -> dict_set k v d = (d ++ [(k, v)])%list.
Proof.
  unfold dict_mem. induction d as [|[k' v'] d IH]; simpl; [reflexivity|].
  destruct (String.eqb k k'); [discriminate|].
  intros H. now rewrite IH.
Qed.

(** Storing under a key the dict has changes that entry where it is. *)
Lemma dict_set_present k v d :
  NoDup (map fst d) -> dict_mem k d = true ->
  dict_set k v d =
  map (fun kv => if String.eqb k (fst kv) then (fst kv, v) else kv) d.
Proof.
  induction d as [|[k' v'] d IH]; simpl; [discriminate|].
  intros ND. inversion ND as [|? ? Hn ND']; subst.
  unfold dict_mem; simpl.
  destruct (String.eqb_spec k k') as [->|N].
  - intros _. f_equal.
    clear IH ND ND'. induction d as [|[k2 v2] d IH]; simpl; [reflexivity|].
    simpl in Hn. destruct (String.eqb_spec k' k2) as [->|N2]; [tauto|].
    f_equal. apply IH. tauto.
  - intros H. f_equal. apply IH; assumption.
Qed.

Lemma dict_set_keys k v d :
  dict_mem k d = true -> map fst (dict_set k v d) = map fst d.
Proof.
  unfold dict_mem. induction d as [|[k' v'] d IH]; simpl; [discriminate|].
  destruct (String.eqb_spec k k') as [->|N]; simpl; [reflexivity|].
  intros H. now rewrite IH.
Qed.

Lemma dict_comp_app (kvs acc : list (string * A)) :
  NoDup (map fst (acc ++ kvs)) ->
  fold_left (fun d kv => dict_set (fst kv) (snd kv) d) kvs acc
  = (acc ++ kvs)%list.
Proof.
  revert acc. induction kvs as [|[k v] kvs IH]; intros acc ND; simpl.
  - now rewrite app_nil_r.
  - rewrite dict_set_absent.
    + rewrite IH; rewrite <- app_assoc; [reflexivity | exact ND].
    + destruct (dict_mem k acc) eqn:E; [|reflexivity].
      apply dict_mem_keys in E. rewrite map_app in ND. simpl in ND.
      apply NoDup_remove_2 in ND. exfalso. apply ND.
      apply in_or_app. now left.
Qed.

(** A comprehension over distinct keys stores the entries as listed. *)
Lemma dict_comp_distinct (kvs : list (string * A)) :
  NoDup (map fst kvs) -> dict_comp kvs = kvs.
Proof. intros ND. unfold dict_comp. now rewrite dict_comp_app. Qed.
End Dicts.

(** ** [str] and the year window *)

Lemma to_int_proper (z : Z) :
  Z.to_int z <> Decimal.Pos Decimal.Nil /\ Z.to_int z <> Decimal.Neg Decimal.Nil.
Proof.
  destruct z as [|p|p]; simpl; split; try discriminate;
    intros E; injection E as E; revert E; apply Unsigned.to_uint_nonnil.
Qed.

Lemma str_inj (a b : Z) : str a = str b -> a = b.
Proof.
  unfold str. intros E.
  destruct (to_int_proper a) as [Ha1 Ha2], (to_int_proper b) as [Hb1 Hb2].
  apply to_int_inj.
  pose proof (NilZero.isi _ Ha1 Ha2) as Ia.
  pose proof (NilZero.isi _ Hb1 Hb2) as Ib.
  rewrite E in Ia. congruence.
Qed.

Lemma year_window_nodup (y n : Z) : NoDup (year_window y n).
Proof.
  unfold year_window. apply Injective_map_NoDup; [|apply seq_NoDup].
  intros a b E. lia.
Qed.

Lemma year_window_length (y n : Z) :
  List.length (year_window y n) = Z.to_nat n.
Proof. unfold year_window. now rewrite length_map, length_seq. Qed.

Lemma year_window_in (y n i : Z) :
  In i (year_window y n) <-> y - n < i <= y.
Proof.
  unfold year_window. rewrite in_map_iff. split.
  - intros [k [<- H]]. apply in_seq in H. lia.
  - intros H. exists (Z.to_nat (y - i)). split; [lia|]. apply in_seq. lia.
Qed.

Lemma range_down_window (y n : Z) : range_down y (y - n) = year_window y n.
Proof. unfold range_down, year_window. now replace (y - (y - n)) with n by lia. Qed.

Lemma str_keys_nodup (zero : value) (l : list Z) :
  NoDup l -> NoDup (map fst (map (fun i => (str i, zero)) l)).
Proof.
  intros ND. rewrite map_map. simpl.
  apply Injective_map_NoDup; [|exact ND].
  intros a b. apply str_inj.
Qed.

(** The pre-populated dict: one zero entry per window year, newest first. *)
Lemma window_entries (today : date) (n : Z) (zero : value) :
  window today n zero
  = map (fun i => (str i, zero)) (year_window (year today) n).
Proof.
  unfold window. rewrite range_down_window.
  apply dict_comp_distinct, str_keys_nodup, year_window_nodup.
Qed.

(** ** The loop over the year buckets *)

Lemma keyed_inv (item : value) :
  keyed item = true ->
  exists k o, getitem item "key" = Ok k /\ dict_key k = Ok o /\
              forall s, has_key s item =
                        match o with Some t => String.eqb s t | None => false end.
Proof.
  unfold keyed, has_key.
  destruct (getitem item "key") as [k|e]; [|discriminate].
  destruct (dict_key k) as [o|e] eqn:E; [|discriminate].
  intros _. exists k, o. split; [reflexivity | split; [exact E|]].
  intros s. destruct k; simpl in E; inversion E; reflexivity.
Qed.

Lemma year_loop (f : value -> result value) (g : value -> value)
  (items : list value) (d : pydict) :
  NoDup (map fst d) ->
  forallb keyed items = true ->
  (forall item s, In item items -> has_key s item = true ->
                  dict_mem s d = true -> f item = Ok (g item)) ->
  for_each (year_step f) items d
  = Ok (map (fun kv =>
               (fst kv,
                match last_bucket (fst kv) items with
                | Some item => g item
                | None => snd kv
                end)) d).
Proof.
  revert d. induction items as [|x xs IH]; intros d ND K F; simpl.
  - f_equal. rewrite <- (map_id d) at 1. apply map_ext. now intros [k v].
  - simpl in K. apply andb_true_iff in K as [Kx Kxs].
    destruct (keyed_inv x Kx) as [k [o [Gk [Dk Hk]]]].
    unfold year_step at 1. rewrite Gk. simpl. rewrite Dk. simpl.
    assert (Skip : forall d', 
      (forall kv, In kv d' -> has_key (fst kv) x = false) ->
      map (fun kv => (fst kv, match last_bucket (fst kv) xs with
                              | Some item => g item | None => snd kv end)) d'
      = map (fun kv => (fst kv,
                 match match last_bucket (fst kv) xs with
                       | Some b => Some b
                       | None => if has_key (fst kv) x then Some x else None
                       end with
                 | Some item => g item | None => snd kv end)) d').
    { intros d' H. apply map_ext_in. intros kv Hin.
      destruct (last_bucket (fst kv) xs); [reflexivity|].
      now rewrite (H kv Hin). }
    destruct o as [s|].
    + destruct (dict_mem s d) eqn:M.
      * rewrite (F x s); [| now left | rewrite Hk; apply String.eqb_refl | exact M].
        simpl. etransitivity; [apply IH|].
        -- now rewrite dict_set_keys.
        -- exact Kxs.
        -- intros item s' Hin Hs' Hm. apply (F item s'); [now right | exact Hs' |].
           apply dict_mem_keys. apply dict_mem_keys in Hm.
           now rewrite dict_set_keys in Hm.
        -- f_equal. rewrite (dict_set_present _ _ _ ND M), map_map.
           apply map_ext. intros [k' v']. simpl. rewrite Hk.
           rewrite (String.eqb_sym k' s).
           destruct (String.eqb s k'); simpl;
             now destruct (last_bucket k' xs).
      * etransitivity; [apply IH; [exact ND | exact Kxs |
                     intros item s' Hin; apply F; now right]|].
        f_equal. apply Skip. intros [k' v'] Hin. simpl. rewrite Hk.
        destruct (String.eqb_spec k' s) as [->|]; [|reflexivity].
        apply dict_mem_in in Hin. congruence.
    + etransitivity; [apply IH; [exact ND | exact Kxs |
                   intros item s' Hin; apply F; now right]|].
      f_equal. apply Skip. intros kv _. now rewrite Hk.
Qed.

(** The dict after the loop: the window, each year's entry taken from the
    last bucket of that year. *)
Lemma year_loop_window (f : value -> result value) (g : value -> value)
  (items : list value) (today : date) (n : Z) (zero : value) :
  forallb keyed items = true ->
  (forall item, In item items -> f item = Ok (g item)) ->
  for_each (year_step f) items (window today n zero)
  = Ok (series g zero items today n).
Proof.
  intros K F. rewrite window_entries, year_loop with (g := g).
  - unfold series. now rewrite map_map.
  - apply str_keys_nodup, year_window_nodup.
  - exact K.
  - intros item s Hin _ _. now apply F.
Qed.

(** ** The three loop bodies *)

Lemma keyed_dict (item : value) :
  keyed item = true -> exists d, item = VDict d.
Proof.
  unfold keyed. destruct item; simpl; try discriminate. intros _. now eexists.
Qed.

Lemma articles_year_step_eq years item :
  articles_year_step years item = year_step articles_entry years item.
Proof. reflexivity. Qed.

Lemma issues_year_step_eq years item :
  issues_year_step years item = year_step issues_entry years item.
Proof.
  unfold issues_year_step, year_step, issues_entry.
  destruct (getitem item "key") as [k|]; simpl; [|reflexivity].
  destruct (dict_key k) as [[s|]|]; simpl; try reflexivity.
  destruct (dict_mem s years); [|reflexivity].
  now destruct (get item "issue" (VDict [])).
Qed.

Lemma languages_year_step_eq years item :
  languages_year_step years item = year_step languages_entry years item.
Proof.
  unfold languages_year_step, year_step, languages_entry.
  destruct (getitem item "key") as [k|]; simpl; [|reflexivity].
  destruct (dict_key k) as [[s|]|]; simpl; try reflexivity.
  destruct (dict_mem s years); [|reflexivity].
  destruct (getitem item "languages") as [l|]; simpl; [|reflexivity].
  destruct (getitem l "buckets") as [b|]; simpl; [|reflexivity].
  destruct (iter b) as [ls|]; simpl; [|reflexivity].
  now destruct (for_each language_step ls no_langs).
Qed.

Lemma for_each_ext {A S} (f g : S -> A -> result S) (xs : list A) (s : S) :
  (forall s x, f s x = g s x) -> for_each f xs s = for_each g xs s.
Proof.
  intros E. revert s. induction xs as [|x xs IH]; intros s; simpl; [reflexivity|].
  rewrite E. destruct (g s x); simpl; auto.
Qed.

Lemma articles_entry_ok (item : value) :
  keyed item = true -> articles_entry item = Ok (doc_count_of item).
Proof.
  intros K. destruct (keyed_dict item K) as [d ->].
  unfold articles_entry, doc_count_of. simpl.
  now destruct (dict_get "doc_count" d).
Qed.

Lemma issues_entry_ok (item : value) :
  issue_bucket item = true -> issues_entry item = Ok (nested_metric "issue" item).
Proof.
  unfold issue_bucket. intros H. apply andb_true_iff in H as [K H].
  destruct (keyed_dict item K) as [d ->].
  unfold issues_entry, nested_metric. simpl.
  destruct (dict_get "issue" d) as [[]|]; simpl; try discriminate;
    try reflexivity.
  now destruct (dict_get "value" d0).
Qed.

(** *** The language buckets of one year *)

Lemma add_int (a : Z) (v : value) (z : Z) :
  as_int v = Some z -> add (VInt a) v = Ok (VInt (a + z)).
Proof. destruct v; simpl; intros E; inversion E; reflexivity. Qed.

Lemma dict_mem_langs (a b c d : Z) (s : string) :
  dict_mem s (langs_of a b c d)
  = (String.eqb s "pt" || String.eqb s "en" || String.eqb s "es"
     || String.eqb s "other").
Proof.
  unfold dict_mem, langs_of, dict_get.
  destruct (String.eqb s "pt"), (String.eqb s "en"), (String.eqb s "es"),
    (String.eqb s "other"); reflexivity.
Qed.

Lemma langs_add_slot (a b c d z : Z) (l v : value) :
  getitem l "doc_count" = Ok v -> as_int v = Some z ->
  langs_add (langs_of a b c d) "pt" l = Ok (langs_of (a + z) b c d) /\
  langs_add (langs_of a b c d) "en" l = Ok (langs_of a (b + z) c d) /\
  langs_add (langs_of a b c d) "es" l = Ok (langs_of a b (c + z) d) /\
  langs_add (langs_of a b c d) "other" l = Ok (langs_of a b c (d + z)).
Proof.
  intros Gd Ev. unfold langs_add, langs_of. simpl. rewrite Gd.
  destruct v; inversion Ev; subst; simpl; repeat split.
Qed.

Lemma language_step_ok (a b c d : Z) (l : value) :
  language_bucket l = true ->
  language_step (langs_of a b c d) l
  = Ok (langs_of (a + total (has_key "pt") [l]) (b + total (has_key "en") [l])
                 (c + total (has_key "es") [l]) (d + total other_language [l])).
Proof.
  unfold language_bucket. intros H. apply andb_true_iff in H as [K D].
  destruct (keyed_inv l K) as [k [o [Gk [Dk Hk]]]].
  destruct (doc_count l) as [z|] eqn:Dc; [clear D | discriminate].
  pose proof Dc as Dc'. unfold doc_count in Dc'.
  destruct (getitem l "doc_count") as [v|] eqn:Gd; [|discriminate].
  destruct (langs_add_slot a b c d z l v Gd Dc') as [Apt [Aen [Aes Aot]]].
  unfold language_step. rewrite Gk. cbn [bind]. rewrite Dk. cbn [bind].
  cbn [total]. unfold other_language. rewrite Dc, !Hk.
  destruct o as [s|].
  - rewrite dict_mem_langs.
    rewrite (String.eqb_sym "pt" s), (String.eqb_sym "en" s),
      (String.eqb_sym "es" s).
    destruct (String.eqb_spec s "pt") as [->|];
      [rewrite Apt; cbn; f_equal; unfold langs_of; repeat f_equal; lia|].
    destruct (String.eqb_spec s "en") as [->|];
      [rewrite Aen; cbn; f_equal; unfold langs_of; repeat f_equal; lia|].
    destruct (String.eqb_spec s "es") as [->|];
      [rewrite Aes; cbn; f_equal; unfold langs_of; repeat f_equal; lia|].
    destruct (String.eqb_spec s "other") as [->|]; rewrite Aot; cbn; f_equal;
      unfold langs_of; repeat f_equal; lia.
  - rewrite Aot. cbn. f_equal. unfold langs_of. repeat f_equal; lia.
Qed.

Lemma langs_of_ext (a b c d a' b' c' d' : Z) :
  a = a' -> b = b' -> c = c' -> d = d' ->
  langs_of a b c d = langs_of a' b' c' d'.
Proof. now intros -> -> -> ->. Qed.

Lemma language_loop (ls : list value) (a b c d : Z) :
  forallb language_bucket ls = true ->
  for_each language_step ls (langs_of a b c d)
  = Ok (langs_of (a + total (has_key "pt") ls) (b + total (has_key "en") ls)
                 (c + total (has_key "es") ls) (d + total other_language ls)).
Proof.
  revert a b c d. induction ls as [|l ls IH]; intros a b c d H.
  - cbn [for_each total]. f_equal. apply langs_of_ext; lia.
  - cbn [forallb] in H. apply andb_true_iff in H as [Hl Hls].
    cbn [for_each]. rewrite (language_step_ok _ _ _ _ _ Hl). cbn [bind].
    etransitivity; [apply IH; exact Hls|].
    f_equal. apply langs_of_ext; cbn [total]; lia.
Qed.

Lemma languages_entry_ok (item : value) :
  language_year_bucket item = true ->
  languages_entry item = Ok (breakdown_of item).
Proof.
  unfold language_year_bucket. intros H. apply andb_true_iff in H as [_ H].
  unfold languages_entry, breakdown_of, languages_of in *.
  destruct (getitem item "languages") as [l|]; simpl in *; [|discriminate].
  destruct (getitem l "buckets") as [b|]; simpl in *; [|discriminate].
  destruct (iter b) as [ls|]; simpl in *; [|discriminate].
  change no_langs with (langs_of 0 0 0 0).
  rewrite (language_loop _ _ _ _ _ H). reflexivity.
Qed.

(** ** The order of strings *)

Lemma string_compare_OT (s t : string) :
  String.compare s t = OrdersEx.String_as_OT.compare s t.
Proof. reflexivity. Qed.

Lemma ltb_lt (s t : string) :
  String.ltb s t = true <-> OrdersEx.String_as_OT.lt s t.
Proof.
  unfold String.ltb, OrdersEx.String_as_OT.lt.
  change (OrdersEx.String_as_OT.compare s t) with (String.compare s t).
  destruct (String.compare s t); split; congruence.
Qed.

Lemma ltb_trans (s t u : string) :
  String.ltb s t = true -> String.ltb t u = true -> String.ltb s u = true.
Proof.
  rewrite !ltb_lt. intros H1 H2. etransitivity; eassumption.
Qed.

Lemma ltb_irrefl (s : string) : String.ltb s s = false.
Proof.
  unfold String.ltb. generalize (String.compare_antisym s s).
  destruct (String.compare s s); simpl; intros; congruence.
Qed.

Lemma ltb_asym (s t : string) :
  String.ltb s t = true -> String.ltb t s = false.
Proof.
  unfold String.ltb. rewrite (String.compare_antisym s t).
  destruct (String.compare t s); simpl; intros; congruence.
Qed.

Lemma ltb_total (s t : string) :
  String.ltb s t = false -> s <> t -> String.ltb t s = true.
Proof.
  unfold String.ltb. rewrite (String.compare_antisym t s).
  destruct (String.compare s t) eqn:E; simpl; intros; try congruence.
  apply String.compare_eq_iff in E. congruence.
Qed.

(** ** [sorted] *)

Section SortedFacts.
Context {A : Type} (less : A -> A -> result bool).

(** [x] may stand before [y]: the sort found [y] not below [x]. *)
Let before (x y : A) : Prop := less y x = Ok false.

Lemma insert_sorted (x : A) (l : list A) :
  Forall (comparable less x) l -> Sorted before l ->
  exists r, insert less x l = Ok r /\ Permutation (x :: l) r /\
            Sorted before r /\
            forall z, before z x -> HdRel before z l -> HdRel before z r.
Proof.
  induction l as [|y l IH]; intros C S; simpl.
  - exists [x]. repeat split; auto.
  - inversion C as [|? ? [[b Hb] Hasym] C']; subst.
    inversion S as [|? ? S' Hd]; subst.
    rewrite Hb. simpl. destruct b.
    + destruct (IH C' S') as [r [-> [P [Sr Hr]]]]. simpl.
      exists (y :: r). repeat split.
      * etransitivity; [apply perm_swap|]. now constructor.
      * constructor; [exact Sr|]. apply Hr; [now apply Hasym | exact Hd].
      * intros z _ Hz. inversion Hz; subst. now constructor.
    + exists (x :: y :: l). repeat split; auto.
Qed.

(** Where the comparisons the sort makes are decided, the result is a
    sorted permutation of the input. *)
Lemma sorted_spec (l : list A) :
  ForallOrdPairs (comparable less) l ->
  exists r, sorted less l = Ok r /\ Permutation l r /\ Sorted before r.
Proof.
  induction l as [|x l IH]; intros C; simpl.
  - exists []. auto.
  - inversion C as [|? ? Cx Cl]; subst.
    destruct (IH Cl) as [r [-> [P S]]]. simpl.
    destruct (insert_sorted x r) as [r' [E [P' [S' _]]]].
    + eapply Permutation_Forall; eassumption.
    + exact S.
    + exists r'. repeat split; auto.
      etransitivity; [|exact P']. now constructor.
Qed.

(** A list already in order is returned as it is. *)
Lemma sorted_fixed (l : list A) : Sorted before l -> sorted less l = Ok l.
Proof.
  induction 1 as [|x l S IH Hd]; simpl; [reflexivity|].
  rewrite IH. simpl. destruct Hd as [|y l Hy]; simpl; [reflexivity|].
  unfold before in Hy. now rewrite Hy.
Qed.
End SortedFacts.

Lemma FOP_impl {A} (P Q : A -> A -> Prop) (l : list A) :
  (forall x y, P x y -> Q x y) -> ForallOrdPairs P l -> ForallOrdPairs Q l.
Proof.
  intros H. induction 1 as [|x l Hx Hl IH]; constructor; auto.
  eapply Forall_impl; [|exact Hx]. auto.
Qed.

Lemma StronglySorted_snoc {A} (R : A -> A -> Prop) (l : list A) (a : A) :
  StronglySorted R l -> Forall (fun x => R x a) l ->
  StronglySorted R (l ++ [a]).
Proof.
  induction 1 as [|x l S IH Hx]; intros F; simpl.
  - repeat constructor.
  - inversion F; subst. constructor; [auto|].
    apply Forall_app. split; [exact Hx | now constructor].
Qed.

Lemma StronglySorted_rev {A} (R : A -> A -> Prop) (l : list A) :
  StronglySorted R l -> StronglySorted (fun a b => R b a) (rev l).
Proof.
  induction 1 as [|x l S IH Hx]; simpl; [constructor|].
  apply StronglySorted_snoc; [exact IH|].
  apply Forall_rev. exact Hx.
Qed.

Lemma Sorted_strengthen {A} (R Q : A -> A -> Prop) (l : list A) :
  NoDup l ->
  (forall x y, In x l -> In y l -> x <> y -> R x y -> Q x y) ->
  Sorted R l -> Sorted Q l.
Proof.
  intros ND H S. induction S as [|x l S IH Hd]; constructor.
  - apply IH; [now inversion ND|]. intros a b Ha Hb. apply H; now right.
  - destruct Hd as [|y l Hy]; constructor.
    apply H; [now left | right; now left | | exact Hy].
    inversion ND as [|? ? Hn _]; subst. intros ->. apply Hn. now left.
Qed.

(** ** [sorted(years.items(), reverse=True)] *)

Lemma distinct_keys_pairs {A} (l : list (string * A)) :
  NoDup (map fst l) -> ForallOrdPairs (fun a b => fst a <> fst b) l.
Proof.
  induction l as [|a l IH]; simpl; intros ND; constructor;
    inversion ND as [|? ? Hn ND']; subst; [|auto].
  apply Forall_forall. intros b Hb E. apply Hn. rewrite E. now apply in_map.
Qed.

Lemma item_lt_distinct (a b : string * value) :
  fst a <> fst b -> item_lt a b = Ok (String.ltb (fst a) (fst b)).
Proof.
  intros N. unfold item_lt. now destruct (String.eqb_spec (fst a) (fst b)).
Qed.

Lemma ltb_trans_keys :
  Relation_Definitions.transitive (string * value)
    (fun a b => String.ltb (fst a) (fst b) = true).
Proof. intros a b c. apply ltb_trans. Qed.

Lemma ascending_sorted (l : list (string * value)) :
  NoDup (map fst l) ->
  exists r, sorted item_lt l = Ok r /\ Permutation l r /\ ascending r.
Proof.
  intros ND.
  destruct (sorted_spec item_lt l) as [r [E [P S]]].
  - eapply FOP_impl; [|apply distinct_keys_pairs, ND].
    intros x y N. split.
    + eexists. apply item_lt_distinct. congruence.
    + rewrite !item_lt_distinct by congruence.
      intros H. inversion H as [H']. now rewrite (ltb_asym _ _ H').
  - exists r. repeat split; [exact E | exact P |].
    assert (NDr : NoDup (map fst r))
      by (eapply Permutation_NoDup; [apply Permutation_map, P | exact ND]).
    apply Sorted_StronglySorted; [exact ltb_trans_keys|].
    eapply Sorted_strengthen; [| |exact S].
    + eapply NoDup_map_inv, NDr.
    + intros x y Hx Hy Nxy. simpl.
      assert (fst x <> fst y).
      { intros Ef. apply Nxy.
        clear - Hx Hy Ef NDr. induction r as [|z r IH]; [contradiction|].
        simpl in NDr. inversion NDr as [|? ? Hn ND']; subst.
        destruct Hx as [->|Hx], Hy as [->|Hy]; auto.
        - exfalso. apply Hn. rewrite Ef. now apply in_map.
        - exfalso. apply Hn. rewrite <- Ef. now apply in_map. }
      rewrite item_lt_distinct by congruence.
      intros Hlt. inversion Hlt as [Hlt']. apply ltb_total; congruence.
Qed.

(** On a dict the sort returns the entries in descending order of key. *)
Lemma sorted_items_spec (d : pydict) :
  NoDup (map fst d) ->
  exists l, sorted_items d = Ok l /\ Permutation d l /\ descending l.
Proof.
  intros ND. unfold sorted_items, sorted_reverse.
  destruct (ascending_sorted (rev d)) as [r [E [P S]]].
  - rewrite map_rev. eapply Permutation_NoDup; [apply Permutation_rev | exact ND].
  - rewrite E. simpl. exists (rev r). repeat split.
    + etransitivity; [apply Permutation_rev|].
      etransitivity; [exact P | apply Permutation_rev].
    + apply StronglySorted_rev in S. exact S.
Qed.

(** A dict already in descending order of key is returned as it is. *)
Lemma sorted_items_fixed (d : pydict) :
  descending d -> sorted_items d = Ok d.
Proof.
  intros D. unfold sorted_items, sorted_reverse.
  assert (NDr : NoDup (rev d)).
  { apply NoDup_rev. unfold descending in D.
    induction D as [|x l S IH Hx]; constructor; [|exact IH].
    intros Hin. rewrite Forall_forall in Hx. specialize (Hx _ Hin).
    simpl in Hx. now rewrite ltb_irrefl in Hx. }
  rewrite sorted_fixed; [simpl; now rewrite rev_involutive|].
  apply StronglySorted_rev in D. apply StronglySorted_Sorted in D.
  eapply Sorted_strengthen; [exact NDr | | exact D].
  intros x y _ _ _ H. simpl in H.
  rewrite item_lt_distinct.
  - now rewrite (ltb_asym _ _ H).
  - intros E. rewrite E, ltb_irrefl in H. discriminate.
Qed.

(** *** Years of four digits *)

Lemma str_next_4 :
  forallb (fun k => String.ltb (str (1000 + Z.of_nat k))
                               (str (1001 + Z.of_nat k)))
          (seq 0 (Z.to_nat 8999)) = true.
Proof. vm_compute. reflexivity. Qed.

Lemma str_next (i : Z) :
  1000 <= i < 9999 -> String.ltb (str i) (str (i + 1)) = true.
Proof.
  intros H. pose proof str_next_4 as F. rewrite forallb_forall in F.
  specialize (F (Z.to_nat (i - 1000))).
  replace (1000 + Z.of_nat (Z.to_nat (i - 1000))) with i in F by lia.
  replace (1001 + Z.of_nat (Z.to_nat (i - 1000))) with (i + 1) in F by lia.
  apply F, in_seq. lia.
Qed.

Lemma window_descending (v : Z -> value) (y : Z) (n : Z) :
  1000 <= y - n + 1 -> y <= 9999 ->
  descending (map (fun i => (str i, v i)) (year_window y n)).
Proof.
  intros Lo Hi. unfold descending, year_window.
  apply Sorted_StronglySorted.
  { intros a b c H1 H2. eapply ltb_trans; eassumption. }
  rewrite map_map.
  assert (G : forall m a, (a + m <= Z.to_nat n)%nat ->
    Sorted (fun a b : string * value => String.ltb (fst b) (fst a) = true)
      (map (fun k => (str (y - Z.of_nat k), v (y - Z.of_nat k))) (seq a m))).
  { induction m as [|m IH]; intros a Ha; simpl; constructor.
    - apply IH. lia.
    - destruct m; simpl; constructor. simpl.
      replace (y - Z.of_nat a) with (y - Z.of_nat (S a) + 1) by lia.
      apply str_next. lia. }
  apply G. lia.
Qed.

(** ** The by-year reducers *)

Lemma series_keys g zero items today n :
  map fst (series g zero items today n) = map str (year_window (year today) n).
Proof. unfold series. rewrite map_map. reflexivity. Qed.

Lemma series_in g zero items today n i :
  year today - n < i <= year today ->
  In (str i,
      match last_bucket (str i) items with
      | Some item => g item
      | None => zero
      end) (series g zero items today n).
Proof.
  intros H. unfold series. apply in_map_iff. exists i. split; [reflexivity|].
  now apply year_window_in.
Qed.

Lemma series_covers g zero items today n out :
  Permutation (series g zero items today n) out ->
  covers_window zero items today n out.
Proof.
  intros P. repeat split.
  - rewrite <- series_keys with (g := g) (zero := zero) (items := items).
    now apply Permutation_map.
  - rewrite <- (Permutation_length P). unfold series.
    now rewrite length_map, year_window_length.
  - intros i Hi Hn. eapply Permutation_in; [exact P|].
    pose proof (series_in g zero items today n i Hi) as S.
    now rewrite Hn in S.
  - intros k v Hin. apply Permutation_sym in P.
    apply (Permutation_in _ P) in Hin. unfold series in Hin.
    apply in_map_iff in Hin as [i [E Hi]]. exists i. split.
    + now apply year_window_in.
    + now inversion E.
Qed.

Lemma series_nodup g zero items today n :
  NoDup (map fst (series g zero items today n)).
Proof.
  rewrite series_keys. apply Injective_map_NoDup.
  - intros a b. apply str_inj.
  - apply year_window_nodup.
Qed.

(** The list a count reducer returns for [years <> 0]. *)
Lemma counts_by_year (f : value -> result value) (g : value -> value)
  (items : list value) (today : date) (n : Z) :
  forallb keyed items = true ->
  (forall item, In item items -> f item = Ok (g item)) ->
  exists l,
    (years <- for_each (year_step f) items (window today n (VInt 0)) ;;
     l <- sorted_items years ;; Ok (Series l)) = Ok (Series l) /\
    Permutation (series g (VInt 0) items today n) l /\
    descending l /\
    (1000 <= year today - n + 1 -> year today <= 9999 ->
     l = series g (VInt 0) items today n).
Proof.
  intros K F. rewrite (year_loop_window f g) by assumption. cbn [bind].
  destruct (sorted_items_spec (series g (VInt 0) items today n))
    as [l [E [P D]]]; [apply series_nodup|].
  exists l. rewrite E. repeat split; auto.
  intros Lo Hi.
  assert (E' : sorted_items (series g (VInt 0) items today n)
               = Ok (series g (VInt 0) items today n)).
  { apply sorted_items_fixed. unfold series.
    now apply (window_descending
                 (fun i => match last_bucket (str i) items with
                           | Some item => g item | None => VInt 0 end)). }
  rewrite E' in E. now inversion E.
Qed.

Lemma forallb_In {A} (p : A -> bool) (l : list A) (x : A) :
  forallb p l = true -> In x l -> p x = true.
Proof. intros H. rewrite forallb_forall in H. apply H. Qed.

Lemma issue_bucket_keyed (items : list value) :
  forallb issue_bucket items = true -> forallb keyed items = true.
Proof.
  rewrite !forallb_forall. intros H x Hx. specialize (H x Hx).
  unfold issue_bucket in H. now apply andb_true_iff in H as [K _].
Qed.

Lemma language_bucket_keyed (items : list value) :
  forallb language_year_bucket items = true -> forallb keyed items = true.
Proof.
  rewrite !forallb_forall. intros H x Hx. specialize (H x Hx).
  unfold language_year_bucket in H. now apply andb_true_iff in H as [K _].
Qed.

Lemma articles_by_year (today : date) (qr : value) (n : Z)
  (items : list value) :
  n <> 0 -> year_buckets qr = Ok items -> forallb keyed items = true ->
  exists l,
    _compute_number_of_articles_by_year today qr n = Ok (Series l) /\
    Permutation (series doc_count_of (VInt 0) items today n) l /\
    descending l /\
    (1000 <= year today - n + 1 -> year today <= 9999 ->
     l = series doc_count_of (VInt 0) items today n).
Proof.
  intros N Y K. unfold _compute_number_of_articles_by_year.
  destruct (Z.eqb_spec n 0) as [|_]; [contradiction|].
  rewrite Y. cbn [bind].
  rewrite (for_each_ext _ (year_step articles_entry))
    by (intros; apply articles_year_step_eq).
  apply counts_by_year; [exact K|].
  intros item Hin. apply articles_entry_ok. eapply forallb_In; eassumption.
Qed.

Lemma issues_by_year (today : date) (qr : value) (n : Z)
  (items : list value) :
  n <> 0 -> year_buckets qr = Ok items -> forallb issue_bucket items = true ->
  exists l,
    _compute_number_of_issues_by_year today qr n = Ok (Series l) /\
    Permutation (series (nested_metric "issue") (VInt 0) items today n) l /\
    descending l /\
    (1000 <= year today - n + 1 -> year today <= 9999 ->
     l = series (nested_metric "issue") (VInt 0) items today n).
Proof.
  intros N Y K. unfold _compute_number_of_issues_by_year.
  destruct (Z.eqb_spec n 0) as [|_]; [contradiction|].
  rewrite Y. cbn [bind].
  rewrite (for_each_ext _ (year_step issues_entry))
    by (intros; apply issues_year_step_eq).
  apply counts_by_year; [now apply issue_bucket_keyed|].
  intros item Hin. apply issues_entry_ok. eapply forallb_In; eassumption.
Qed.

Lemma languages_by_year (today : date) (qr : value) (n : Z)
  (items : list value) :
  year_buckets qr = Ok items ->
  forallb language_year_bucket items = true ->
  _compute_documents_languages_by_year today qr n
  = Ok (series breakdown_of (VDict no_langs) items today n).
Proof.
  intros Y K. unfold _compute_documents_languages_by_year.
  rewrite Y. cbn [bind].
  rewrite (for_each_ext _ (year_step languages_entry))
    by (intros; apply languages_year_step_eq).
  apply year_loop_window; [now apply language_bucket_keyed|].
  intros item Hin. apply languages_entry_ok. eapply forallb_In; eassumption.
Qed.

(** ** The access-lifetime reducer *)

Lemma nodup_map_inj {A B} (f : A -> B) (l : list A) (x y : A) :
  NoDup (map f l) -> In x l -> In y l -> f x = f y -> x = y.
Proof.
  induction l as [|z l IH]; simpl; [contradiction|].
  intros ND Hx Hy E. inversion ND as [|? ? Hn ND']; subst.
  destruct Hx as [->|Hx], Hy as [->|Hy]; auto.
  - exfalso. apply Hn. rewrite E. now apply in_map.
  - exfalso. apply Hn. rewrite <- E. now apply in_map.
Qed.

Lemma Sorted_map_inv {A B} (f : A -> B) (R : B -> B -> Prop) (l : list A) :
  Sorted R (map f l) -> Sorted (fun x y => R (f x) (f y)) l.
Proof.
  induction l as [|x l IH]; simpl; intros S; constructor;
    inversion S as [|? ? S' Hd]; subst; [auto|].
  destruct l; simpl in *; constructor. now inversion Hd.
Qed.

Lemma string_compare_refl (s : string) : String.compare s s = Eq.
Proof.
  generalize (String.compare_antisym s s).
  destruct (String.compare s s); simpl; intros; congruence.
Qed.

Lemma string_eqb_compare (s t : string) :
  String.eqb s t = match String.compare s t with Eq => true | _ => false end.
Proof.
  destruct (String.eqb_spec s t) as [->|N].
  - now rewrite string_compare_refl.
  - destruct (String.compare s t) eqn:E; try reflexivity.
    apply String.compare_eq_iff in E. contradiction.
Qed.

(** [<] on two rows is the lexicographic order of their seven fields. *)
Lemma lt_rows (p q : LifetimePoint) :
  lt (row_of p) (row_of q) = Ok (is_lt (point_compare p q)).
Proof.
  destruct p as [py ay h a pd e t], q as [py' ay' h' a' pd' e' t'].
  unfold row_of, point_compare. cbn -[String.eqb String.ltb String.compare Z.compare].
  rewrite !string_eqb_compare. unfold String.ltb.
  destruct (String.compare py py'); try reflexivity.
  destruct (String.compare ay ay'); try reflexivity. cbn -[Z.compare].
  destruct (h ?= h'); try reflexivity.
  destruct (a ?= a'); try reflexivity.
  destruct (pd ?= pd'); try reflexivity.
  destruct (e ?= e'); try reflexivity.
  destruct (t ?= t'); reflexivity.
Qed.

Lemma point_compare_antisym (p q : LifetimePoint) :
  point_compare q p = CompOpp (point_compare p q).
Proof.
  unfold point_compare.
  rewrite (String.compare_antisym (publication_year p) (publication_year q)),
    (String.compare_antisym (access_year p) (access_year q)),
    (Z.compare_antisym (html_count q) (html_count p)),
    (Z.compare_antisym (abstract_count q) (abstract_count p)),
    (Z.compare_antisym (pdf_count q) (pdf_count p)),
    (Z.compare_antisym (epdf_count q) (epdf_count p)),
    (Z.compare_antisym (total_count q) (total_count p)).
  destruct (String.compare (publication_year q) (publication_year p)),
    (String.compare (access_year q) (access_year p)),
    (html_count q ?= html_count p), (abstract_count q ?= abstract_count p),
    (pdf_count q ?= pdf_count p), (epdf_count q ?= epdf_count p),
    (total_count q ?= total_count p); reflexivity.
Qed.

Lemma rows_comparable (p q : LifetimePoint) :
  comparable lt (row_of p) (row_of q).
Proof.
  split; [eexists; apply lt_rows|].
  rewrite !lt_rows, (point_compare_antisym q p).
  destruct (point_compare q p); simpl; congruence.
Qed.

Lemma rows_key_lt (p q : LifetimePoint) :
  lt (row_of q) (row_of p) = Ok false -> point_key p <> point_key q ->
  key_lt p q.
Proof.
  rewrite lt_rows, (point_compare_antisym p q).
  unfold point_compare, key_lt, point_key, String.ltb.
  destruct (String.compare (publication_year p) (publication_year q)) eqn:E1;
    simpl; [| now left | discriminate].
  apply String.compare_eq_iff in E1.
  destruct (String.compare (access_year p) (access_year q)) eqn:E2;
    simpl; [| now right | discriminate].
  apply String.compare_eq_iff in E2. intros _ N. exfalso. apply N. congruence.
Qed.

Lemma key_lt_trans : Relation_Definitions.transitive LifetimePoint key_lt.
Proof.
  intros p q r [H1|[E1 H1]] [H2|[E2 H2]].
  - left. eapply ltb_trans; eassumption.
  - left. now rewrite <- E2.
  - left. now rewrite E1.
  - right. split; [congruence | eapply ltb_trans; eassumption].
Qed.

Section Lifetime.
Variable int_of_str : string -> result Z.

Lemma str_key_inv (item : value) (s : string) :
  str_key item = Some s -> getitem item "key" = Ok (VStr s).
Proof.
  unfold str_key. destruct (getitem item "key") as [[]|]; try discriminate.
  now intros [= ->].
Qed.

Lemma metric_ok (a : value) (name : string) (z : Z) :
  count_of int_of_str a name = Some z ->
  AccessStats.metric int_of_str a name = Ok (VInt z).
Proof.
  unfold count_of, AccessStats.metric.
  destruct (getitem a name) as [m|]; simpl; [|discriminate].
  destruct (getitem m "value") as [v|]; simpl; [|discriminate].
  destruct (AccessStats.int int_of_str v); simpl; [|discriminate].
  now intros [= ->].
Qed.

Lemma lifetime_row_ok (p a : value) (pk : string) (pt : LifetimePoint) :
  str_key p = Some pk -> point_of int_of_str pk a = Some pt ->
  AccessStats.lifetime_row int_of_str p a = Ok (row_of pt).
Proof.
  intros Kp. unfold point_of, AccessStats.lifetime_row.
  rewrite (str_key_inv _ _ Kp). cbn [bind].
  destruct (str_key a) as [ak|] eqn:Ka; [|discriminate].
  rewrite (str_key_inv _ _ Ka). cbn [bind].
  destruct (count_of int_of_str a "access_html") eqn:E1; [|discriminate].
  destruct (count_of int_of_str a "access_abstract") eqn:E2; [|discriminate].
  destruct (count_of int_of_str a "access_pdf") eqn:E3; [|discriminate].
  destruct (count_of int_of_str a "access_epdf") eqn:E4; [|discriminate].
  destruct (count_of int_of_str a "access_total") eqn:E5; [|discriminate].
  intros [= <-].
  rewrite (metric_ok _ _ _ E1), (metric_ok _ _ _ E2), (metric_ok _ _ _ E3),
    (metric_ok _ _ _ E4), (metric_ok _ _ _ E5).
  reflexivity.
Qed.

Lemma lifetime_inner_loop (p : value) (pk : string) (accesses : list value) :
  str_key p = Some pk ->
  forall pts data,
    points_of_accesses int_of_str pk accesses = Some pts ->
    for_each (AccessStats.lifetime_inner int_of_str p) accesses data
    = Ok (data ++ map row_of pts)%list.
Proof.
  intros Kp. induction accesses as [|a accesses IH]; intros pts data; simpl.
  - intros [= <-]. now rewrite app_nil_r.
  - destruct (point_of int_of_str pk a) as [pt|] eqn:Ea; [|discriminate].
    destruct (points_of_accesses int_of_str pk accesses) as [ps|];
      [|discriminate].
    intros [= <-]. unfold AccessStats.lifetime_inner at 1.
    rewrite (lifetime_row_ok _ _ _ _ Kp Ea). cbn [bind].
    rewrite (IH ps); [|reflexivity]. simpl. now rewrite <- app_assoc.
Qed.

Lemma lifetime_outer_loop (items : list value) :
  forall pts data,
    points_of int_of_str items = Some pts ->
    for_each (AccessStats.lifetime_outer int_of_str) items data
    = Ok (data ++ map row_of pts)%list.
Proof.
  induction items as [|p items IH]; intros pts data; simpl.
  - intros [= <-]. now rewrite app_nil_r.
  - destruct (str_key p) as [pk|] eqn:Kp; [|discriminate].
    unfold access_buckets, AccessStats.lifetime_outer at 1.
    destruct (getitem p "access_year") as [a|]; simpl; [|discriminate].
    destruct (getitem a "buckets") as [b|]; simpl; [|discriminate].
    destruct (iter b) as [accesses|]; simpl; [|discriminate].
    destruct (points_of_accesses int_of_str pk accesses) as [ps|] eqn:Ep;
      [|discriminate].
    destruct (points_of int_of_str items) as [qs|]; [|discriminate].
    intros [= <-].
    rewrite (lifetime_inner_loop _ _ _ Kp _ _ Ep). cbn [bind].
    rewrite (IH qs); [|reflexivity]. now rewrite map_app, app_assoc.
Qed.

(** The reducer returns the points of the response, as rows, in order. *)
Lemma access_lifetime_sorted (qr : value) (pts : list LifetimePoint) :
  lifetime_points int_of_str qr = Some pts ->
  exists out,
    AccessStats._compute_access_lifetime int_of_str qr
    = Ok (map row_of out) /\
    Permutation pts out /\
    Sorted (fun p q => lt (row_of q) (row_of p) = Ok false) out.
Proof.
  unfold lifetime_points, year_buckets, AccessStats._compute_access_lifetime.
  destruct (getitem qr "aggregations") as [a|]; simpl; [|discriminate].
  destruct (getitem a "publication_year") as [p|]; simpl; [|discriminate].
  destruct (getitem p "buckets") as [b|]; simpl; [|discriminate].
  destruct (iter b) as [items|]; simpl; [|discriminate].
  intros P. rewrite (lifetime_outer_loop _ _ _ P). simpl.
  destruct (sorted_spec lt (map row_of pts)) as [r [E [Pr S]]].
  - clear. induction pts as [|x pts IH]; simpl; constructor; [|exact IH].
    apply Forall_forall. intros y Hy. apply in_map_iff in Hy as [q [<- _]].
    apply rows_comparable.
  - apply Permutation_sym, Permutation_map_inv in Pr as [out [-> Po]].
    exists out. repeat split; [exact E | now apply Permutation_sym |].
    now apply Sorted_map_inv in S.
Qed.
End Lifetime.

(** ** The language records keep their four slots *)

Lemma for_each_invariant {A S} (P : S -> Prop) (f : S -> A -> result S)
  (xs : list A) :
  (forall s x s', P s -> f s x = Ok s' -> P s') ->
  forall s s', P s -> for_each f xs s = Ok s' -> P s'.
Proof.
  intros H. induction xs as [|x xs IH]; intros s s' Ps; simpl.
  - now intros [= <-].
  - destruct (f s x) as [t|] eqn:E; simpl; [|discriminate].
    apply IH. eapply H; eassumption.
Qed.

Lemma langs_add_keys (langs langs' : pydict) (slot : string) (l : value) :
  langs_add langs slot l = Ok langs' -> map fst langs' = map fst langs.
Proof.
  unfold langs_add. destruct (dict_get slot langs) as [n|] eqn:G; [|discriminate].
  destruct (getitem l "doc_count") as [c|]; simpl; [|discriminate].
  destruct (add n c) as [s|]; simpl; [|discriminate].
  intros [= <-]. apply dict_set_keys. unfold dict_mem. now rewrite G.
Qed.

Lemma language_step_keys (langs langs' : pydict) (l : value) :
  language_step langs l = Ok langs' -> map fst langs' = map fst langs.
Proof.
  unfold language_step.
  destruct (getitem l "key") as [k|]; simpl; [|discriminate].
  destruct (dict_key k) as [[s|]|]; simpl; [| |discriminate];
    [destruct (dict_mem s langs)|]; apply langs_add_keys.
Qed.

Lemma four_slots (langs : pydict) :
  map fst langs = ["pt"; "en"; "es"; "other"] -> is_breakdown (VDict langs).
Proof.
  destruct langs as [|[k1 a] [|[k2 b] [|[k3 c] [|[k4 d] [|]]]]]; try discriminate.
  simpl. intros [= -> -> -> ->]. now exists a, b, c, d.
Qed.

Lemma dict_set_forall {A} (P : string * A -> Prop) (k : string) (v : A)
  (d : list (string * A)) :
  Forall P d -> P (k, v) -> Forall P (dict_set k v d).
Proof.
  intros F Pk. induction F as [|[k' v'] d Px F IH]; simpl.
  - now constructor.
  - destruct (String.eqb k k'); constructor; auto.
Qed.

Lemma languages_year_step_slots (years years' : pydict) (item : value) :
  Forall (fun kv => is_breakdown (snd kv)) years ->
  languages_year_step years item = Ok years' ->
  Forall (fun kv => is_breakdown (snd kv)) years'.
Proof.
  intros F. unfold languages_year_step.
  destruct (getitem item "key") as [k|]; simpl; [|discriminate].
  destruct (dict_key k) as [[s|]|]; simpl; [| now intros [= <-] |discriminate].
  destruct (dict_mem s years); [|now intros [= <-]].
  destruct (getitem item "languages") as [l|]; simpl; [|discriminate].
  destruct (getitem l "buckets") as [b|]; simpl; [|discriminate].
  destruct (iter b) as [ls|]; simpl; [|discriminate].
  destruct (for_each language_step ls no_langs) as [langs|] eqn:E; simpl;
    [|discriminate].
  intros [= <-]. apply dict_set_forall; [exact F|]. simpl.
  apply four_slots.
  apply (for_each_invariant
           (fun d => map fst d = ["pt"; "en"; "es"; "other"])
           language_step ls) with (s := no_langs); [| reflexivity | exact E].
  intros t x t' Ht Hx. now rewrite (language_step_keys _ _ _ Hx).
Qed.

Lemma languages_slots (today : date) (qr : value) (n : Z) (out : pydict) :
  _compute_documents_languages_by_year today qr n = Ok out ->
  Forall (fun kv => is_breakdown (snd kv)) out.
Proof.
  unfold _compute_documents_languages_by_year.
  destruct (year_buckets qr) as [items|]; simpl; [|discriminate].
  apply for_each_invariant.
  - intros s x s'. apply languages_year_step_slots.
  - rewrite window_entries. apply Forall_forall. intros kv Hin.
    apply in_map_iff in Hin as [i [<- _]]. simpl. now apply four_slots.
Qed.

(** ** An empty window stays empty *)

Lemma window_empty (today : date) (n : Z) (zero : value) :
  n <= 0 -> window today n zero = [].
Proof.
  intros H. rewrite window_entries. unfold year_window.
  now replace (Z.to_nat n) with 0%nat by lia.
Qed.

Lemma languages_year_step_empty (item : value) (years' : pydict) :
  languages_year_step [] item = Ok years' -> years' = [].
Proof.
  unfold languages_year_step.
  destruct (getitem item "key") as [k|]; simpl; [|discriminate].
  destruct (dict_key k) as [[s|]|]; simpl; [| |discriminate];
    now intros [= <-].
Qed.

Lemma year_step_keyed_empty (f : value -> result value) (items : list value) :
  forallb keyed items = true -> for_each (year_step f) items [] = Ok [].
Proof.
  intros K. rewrite (year_loop f (fun _ => VNone)); auto.
  - constructor.
  - intros item s _ _ M. discriminate.
Qed.

(** ** The document lookups *)

Lemma hit_list_inv (qr : value) (l : list value) :
  hit_list qr = Some l ->
  exists d h, qr = VDict d /\ dict_get "hits" d = Some (VDict h) /\
              dict_get "hits" h = Some (VList l).
Proof.
  unfold hit_list. destruct qr; simpl; try discriminate.
  destruct (dict_get "hits" d) as [[]|] eqn:E1; simpl; try discriminate.
  destruct (dict_get "hits" d0) as [[]|] eqn:E2; simpl; try discriminate.
  intros [= <-]. eauto.
Qed.

Lemma first_included_document (qr : value) (l : list value) :
  hit_list qr = Some l ->
  _compute_first_included_document_by_journal qr
  = match l with
    | [] => Ok VNone
    | hit :: _ => get hit "_source" VNone
    end.
Proof.
  intros H. destruct (hit_list_inv _ _ H) as [d [h [-> [E1 E2]]]].
  unfold _compute_first_included_document_by_journal, get, getitem.
  rewrite E1. cbn [bind]. rewrite E2. cbn [bind len].
  destruct l as [|hit l]; [reflexivity|].
  destruct (Z.eqb_spec (Z.of_nat (List.length (hit :: l))) 0) as [E|_];
    [simpl in E; lia | reflexivity].
Qed.

Lemma last_included_document (qr : value) (l : list value) :
  hit_list qr = Some l ->
  _compute_last_included_document_by_journal qr
  = match l with
    | [] => Ok VNone
    | hit :: _ => get hit "_source" VNone
    end.
Proof.
  intros H. destruct (hit_list_inv _ _ H) as [d [h [-> [E1 E2]]]].
  unfold _compute_last_included_document_by_journal, get, getitem.
  rewrite E1. cbn [bind]. rewrite E2. cbn [bind len].
  destruct l as [|hit l]; [reflexivity|].
  destruct (Z.eqb_spec (Z.of_nat (List.length (hit :: l))) 0) as [E|_];
    [simpl in E; lia | reflexivity].
Qed.

(** ** [int] of a float *)

(** [int] drops the fraction: the result is the integer of the same sign
    nearest to the float's value [(-1)^s * m * 2^e] towards zero. *)
Lemma int_of_float_truncates (s : bool) (m : positive) (e : Z) :
  exists z,
    int_of_float (S754_finite s m e) = Ok z /\
    (0 <= e -> z = (if s then -1 else 1) * Z.pos m * 2 ^ e) /\
    (e < 0 ->
     Z.abs z * 2 ^ (- e) <= Z.pos m < (Z.abs z + 1) * 2 ^ (- e) /\
     (if s then z <= 0 else 0 <= z)).
Proof.
  unfold int_of_float. eexists. split; [reflexivity|].
  destruct (Z.leb_spec 0 e) as [He|He]; split; intros H; try lia.
  - destruct s; lia.
  - assert (P : 0 < 2 ^ (- e)) by (apply Z.pow_pos_nonneg; lia).
    pose proof (Z.div_mod (Z.pos m) (2 ^ (- e)) ltac:(lia)) as D.
    pose proof (Z.mod_pos_bound (Z.pos m) (2 ^ (- e)) P) as B.
    assert (Q : 0 <= Z.pos m / 2 ^ (- e)) by (apply Z.div_pos; lia).
    destruct s.
    + rewrite Z.abs_opp, Z.abs_eq by exact Q. split; [nia | lia].
    + rewrite Z.abs_eq by exact Q. split; [nia | lia].
Qed.

(** * The claims *)

Import Examples.

(** ** Year windows *)

(** C1, as amended: for [years = n > 0] and a response whose year buckets
    are well formed, each of the three by-year reducers returns exactly [n]
    entries, keyed by the years [current_year - n + 1 .. current_year], the
    zero value for a window year without a bucket, and no key from outside
    the window.  The language mapping lists the years newest first.  The two
    count lists are in descending order of the keys compared as strings,
    which is newest first when every window year has four digits. *)
Theorem year_series_cover_window
  (today : date) (qr : value) (n : Z) (items : list value) :
  0 < n ->
  year_buckets qr = Ok items ->
  (forallb language_year_bucket items = true ->
   exists out,
     _compute_documents_languages_by_year today qr n = Ok out /\
     covers_window (VDict no_langs) items today n out /\
     map fst out = map str (year_window (year today) n)) /\
  (forallb keyed items = true ->
   exists l,
     _compute_number_of_articles_by_year today qr n = Ok (Series l) /\
     covers_window (VInt 0) items today n l /\
     descending l /\
     (1000 <= year today - n + 1 -> year today <= 9999 ->
      map fst l = map str (year_window (year today) n))) /\
  (forallb issue_bucket items = true ->
   exists l,
     _compute_number_of_issues_by_year today qr n = Ok (Series l) /\
     covers_window (VInt 0) items today n l /\
     descending l /\
     (1000 <= year today - n + 1 -> year today <= 9999 ->
      map fst l = map str (year_window (year today) n))).
Proof.
  intros N Y. repeat split.
  - intros K. eexists. split; [apply (languages_by_year _ _ _ _ Y K)|]. split.
    + apply (series_covers breakdown_of). reflexivity.
    + apply series_keys.
  - intros K.
    destruct (articles_by_year today qr n items ltac:(lia) Y K)
      as [l [E [P [D F]]]].
    exists l. repeat split; auto.
    + apply (series_covers doc_count_of _ _ _ _ _ P).
    + apply (series_covers doc_count_of _ _ _ _ _ P).
    + apply (series_covers doc_count_of _ _ _ _ _ P).
    + apply (series_covers doc_count_of _ _ _ _ _ P).
    + intros Lo Hi. rewrite (F Lo Hi). apply series_keys.
  - intros K.
    destruct (issues_by_year today qr n items ltac:(lia) Y K)
      as [l [E [P [D F]]]].
    exists l. repeat split; auto.
    + apply (series_covers (nested_metric "issue") _ _ _ _ _ P).
    + apply (series_covers (nested_metric "issue") _ _ _ _ _ P).
    + apply (series_covers (nested_metric "issue") _ _ _ _ _ P).
    + apply (series_covers (nested_metric "issue") _ _ _ _ _ P).
    + intros Lo Hi. rewrite (F Lo Hi). apply series_keys.
Qed.

Lemma year_series_cover_window_witness :
  exists out l1 l2,
    (_compute_documents_languages_by_year clock
       (aggregations language_buckets) 3 = Ok out /\
     covers_window (VDict no_langs) language_buckets clock 3 out /\
     map fst out = map str (year_window 2026 3)) /\
    (_compute_number_of_articles_by_year clock
       (aggregations article_buckets) 3 = Ok (Series l1) /\
     covers_window (VInt 0) article_buckets clock 3 l1 /\
     map fst l1 = map str (year_window 2026 3)) /\
    (_compute_number_of_issues_by_year clock
       (aggregations issue_buckets) 3 = Ok (Series l2) /\
     covers_window (VInt 0) issue_buckets clock 3 l2 /\
     map fst l2 = map str (year_window 2026 3)).
Proof.
  destruct (year_series_cover_window clock (aggregations language_buckets) 3
              language_buckets eq_refl eq_refl) as [H1 _].
  destruct (year_series_cover_window clock (aggregations article_buckets) 3
              article_buckets eq_refl eq_refl) as [_ [H2 _]].
  destruct (year_series_cover_window clock (aggregations issue_buckets) 3
              issue_buckets eq_refl eq_refl) as [_ [_ H3]].
  destruct (H1 eq_refl) as [out [E1 [C1 K1]]].
  destruct (H2 eq_refl) as [l1 [E2 [C2 [_ K2]]]].
  destruct (H3 eq_refl) as [l2 [E3 [C3 [_ K3]]]].
  exists out, l1, l2.
  split; [|split]; (split; [assumption | split; [assumption|]]).
  - exact K1.
  - apply K2; simpl; lia.
  - apply K3; simpl; lia.
Defined.

(** C1 as stated fails for the count lists once the window reaches below
    the year 1000: with the clock in 2026 and [years = 1028] the window
    runs from 2026 down to 999, and the list starts at 999. *)
Lemma year_order_lost_below_1000 :
  hd_error (year_window 2026 1028) = Some 2026 /\
  exists l,
    _compute_number_of_articles_by_year clock (aggregations []) 1028
    = Ok (Series l) /\
    hd_error l = Some ("999", VInt 0).
Proof.
  split; [reflexivity|]. eexists. split; vm_compute; reflexivity.
Qed.

(** ** Counts by year *)

(** C2, as amended: for [years = n > 0] and well formed year buckets, the
    issues reducer gives each window year the value of the nested [issue]
    metric of that year's last bucket, 0 when the bucket has no [issue]
    sub-result or the sub-result no [value], and both count reducers return
    their (year, count) pairs in descending order of the keys as strings,
    the years newest first when every window year has four digits. *)
Theorem counts_by_year_sorted
  (today : date) (qr : value) (n : Z) (items : list value) :
  0 < n ->
  year_buckets qr = Ok items ->
  (forallb issue_bucket items = true ->
   exists l,
     _compute_number_of_issues_by_year today qr n = Ok (Series l) /\
     Permutation (series (nested_metric "issue") (VInt 0) items today n) l /\
     descending l /\
     (1000 <= year today - n + 1 -> year today <= 9999 ->
      l = series (nested_metric "issue") (VInt 0) items today n)) /\
  (forallb keyed items = true ->
   exists l,
     _compute_number_of_articles_by_year today qr n = Ok (Series l) /\
     Permutation (map str (year_window (year today) n)) (map fst l) /\
     descending l /\
     (1000 <= year today - n + 1 -> year today <= 9999 ->
      map fst l = map str (year_window (year today) n))).
Proof.
  intros N Y. split; intros K.
  - apply issues_by_year; [lia | exact Y | exact K].
  - destruct (articles_by_year today qr n items ltac:(lia) Y K)
      as [l [E [P [D F]]]].
    exists l. repeat split; auto.
    + apply (series_covers doc_count_of _ _ _ _ _ P).
    + intros Lo Hi. rewrite (F Lo Hi). apply series_keys.
Qed.

Lemma counts_by_year_sorted_witness :
  _compute_number_of_issues_by_year clock (aggregations issue_buckets) 3
  = Ok (Series (series (nested_metric "issue") (VInt 0) issue_buckets
                  clock 3)) /\
  exists l,
    _compute_number_of_articles_by_year clock
      (aggregations article_buckets) 3 = Ok (Series l) /\
    map fst l = map str (year_window 2026 3).
Proof.
  destruct (counts_by_year_sorted clock (aggregations issue_buckets) 3
              issue_buckets eq_refl eq_refl) as [H1 _].
  destruct (counts_by_year_sorted clock (aggregations article_buckets) 3
              article_buckets eq_refl eq_refl) as [_ H2].
  destruct (H1 eq_refl) as [l1 [E1 [_ [_ F1]]]].
  destruct (H2 eq_refl) as [l2 [E2 [_ [_ F2]]]].
  split.
  - rewrite <- F1; [exact E1 | simpl; lia | simpl; lia].
  - exists l2. split; [exact E2 | apply F2; simpl; lia].
Defined.

(** C2 as stated fails twice.  The articles reducer stores the bucket's
    [doc_count] (7), not its nested [id] metric (5); and with
    [years = 1028] the issues list starts at the year 999. *)
Lemma articles_count_is_not_the_metric :
  nth_error article_buckets 0
  = Some (VDict [("key", VStr "2026"); ("doc_count", VInt 7);
                 ("id", VDict [("value", VInt 5)])]) /\
  _compute_number_of_articles_by_year clock (aggregations article_buckets) 1
  = Ok (Series [("2026", VInt 7)]) /\
  series (nested_metric "id") (VInt 0) article_buckets clock 1
  = [("2026", VInt 5)] /\
  exists l,
    _compute_number_of_issues_by_year clock (aggregations []) 1028
    = Ok (Series l) /\
    hd_error l = Some ("999", VInt 0).
Proof.
  repeat split; try reflexivity.
  eexists. split; vm_compute; reflexivity.
Qed.

(** ** Missing keys *)

Lemma without_aggregations (d : pydict) :
  dict_get "aggregations" d = None ->
  getitem (VDict d) "aggregations" = Raise (KeyError "aggregations").
Proof. intros E. unfold getitem. now rewrite E. Qed.

Lemma without_year_buckets (d a : pydict) :
  dict_get "aggregations" d = Some (VDict a) ->
  dict_get "publication_year" a = None ->
  getitem (VDict d) "aggregations" = Ok (VDict a) /\
  getitem (VDict a) "publication_year" = Raise (KeyError "publication_year").
Proof. intros E1 E2. unfold getitem. now rewrite E1, E2. Qed.

(** C3, as amended: only the keys the reducers read with [.get] may be
    missing.  A response without [hits], or whose [hits] has no [hits],
    makes both document lookups return [None]; a year bucket without
    [issue], or whose [issue] has no [value], respectively without
    [doc_count], gives its year the count 0.  A response without
    [aggregations] or without [publication_year] makes the aggregation
    reducers raise [KeyError], and so does one without the top-level metric
    when [years = 0]. *)
Theorem missing_keys
  (int_of_str : string -> result Z) (today : date) (n : Z) :
  (forall d,
     dict_get "hits" d = None ->
     _compute_first_included_document_by_journal (VDict d) = Ok VNone /\
     _compute_last_included_document_by_journal (VDict d) = Ok VNone) /\
  (forall d h,
     dict_get "hits" d = Some (VDict h) -> dict_get "hits" h = None ->
     _compute_first_included_document_by_journal (VDict d) = Ok VNone /\
     _compute_last_included_document_by_journal (VDict d) = Ok VNone) /\
  (forall qr items i b,
     0 < n -> year_buckets qr = Ok items ->
     forallb issue_bucket items = true ->
     year today - n < i <= year today ->
     last_bucket (str i) items = Some (VDict b) ->
     dict_get "issue" b = None \/
     (exists m, dict_get "issue" b = Some (VDict m) /\
                dict_get "value" m = None) ->
     exists l, _compute_number_of_issues_by_year today qr n = Ok (Series l) /\
               In (str i, VInt 0) l) /\
  (forall qr items i b,
     0 < n -> year_buckets qr = Ok items ->
     forallb keyed items = true ->
     year today - n < i <= year today ->
     last_bucket (str i) items = Some (VDict b) ->
     dict_get "doc_count" b = None ->
     exists l, _compute_number_of_articles_by_year today qr n = Ok (Series l) /\
               In (str i, VInt 0) l) /\
  (forall d,
     dict_get "aggregations" d = None ->
     AccessStats._compute_access_lifetime int_of_str (VDict d)
     = Raise (KeyError "aggregations") /\
     _compute_documents_languages_by_year today (VDict d) n
     = Raise (KeyError "aggregations") /\
     _compute_number_of_articles_by_year today (VDict d) n
     = Raise (KeyError "aggregations") /\
     _compute_number_of_issues_by_year today (VDict d) n
     = Raise (KeyError "aggregations")) /\
  (forall d a,
     dict_get "aggregations" d = Some (VDict a) ->
     dict_get "publication_year" a = None ->
     AccessStats._compute_access_lifetime int_of_str (VDict d)
     = Raise (KeyError "publication_year") /\
     _compute_documents_languages_by_year today (VDict d) n
     = Raise (KeyError "publication_year") /\
     (n <> 0 ->
      _compute_number_of_articles_by_year today (VDict d) n
      = Raise (KeyError "publication_year") /\
      _compute_number_of_issues_by_year today (VDict d) n
      = Raise (KeyError "publication_year"))) /\
  (forall d a,
     dict_get "aggregations" d = Some (VDict a) ->
     (dict_get "id" a = None ->
      _compute_number_of_articles_by_year today (VDict d) 0
      = Raise (KeyError "id")) /\
     (dict_get "issue" a = None ->
      _compute_number_of_issues_by_year today (VDict d) 0
      = Raise (KeyError "issue"))).
Proof.
  repeat apply conj.
  - intros d E.
    unfold _compute_first_included_document_by_journal,
      _compute_last_included_document_by_journal, get.
    now rewrite E.
  - intros d h E1 E2.
    unfold _compute_first_included_document_by_journal,
      _compute_last_included_document_by_journal, get.
    rewrite E1. cbn [bind]. now rewrite E2.
  - intros qr items i b N Y K Hi L M.
    destruct (issues_by_year today qr n items ltac:(lia) Y K)
      as [l [E [P _]]].
    exists l. split; [exact E|]. eapply Permutation_in; [exact P|].
    pose proof (series_in (nested_metric "issue") (VInt 0) items today n i Hi)
      as S.
    rewrite L in S. unfold nested_metric in S.
    destruct M as [M|[m [M1 M2]]]; [now rewrite M in S|].
    now rewrite M1, M2 in S.
  - intros qr items i b N Y K Hi L M.
    destruct (articles_by_year today qr n items ltac:(lia) Y K)
      as [l [E [P _]]].
    exists l. split; [exact E|]. eapply Permutation_in; [exact P|].
    pose proof (series_in doc_count_of (VInt 0) items today n i Hi) as S.
    rewrite L in S. unfold doc_count_of in S. now rewrite M in S.
  - intros d E. pose proof (without_aggregations d E) as G.
    unfold AccessStats._compute_access_lifetime,
      _compute_documents_languages_by_year,
      _compute_number_of_articles_by_year,
      _compute_number_of_issues_by_year, year_buckets.
    rewrite G. cbn [bind]. now destruct (n =? 0).
  - intros d a E1 E2. destruct (without_year_buckets d a E1 E2) as [G1 G2].
    unfold AccessStats._compute_access_lifetime,
      _compute_documents_languages_by_year,
      _compute_number_of_articles_by_year,
      _compute_number_of_issues_by_year, year_buckets.
    rewrite G1. cbn [bind]. rewrite G2. cbn [bind].
    repeat split; destruct (Z.eqb_spec n 0); congruence.
  - intros d a E. 
    unfold _compute_number_of_articles_by_year,
      _compute_number_of_issues_by_year, getitem.
    rewrite E. cbn [bind Z.eqb]. split; intros M; now rewrite M.
Qed.

Lemma missing_keys_witness :
  (_compute_first_included_document_by_journal (VDict []) = Ok VNone /\
   _compute_last_included_document_by_journal (VDict []) = Ok VNone) /\
  (exists l,
     _compute_number_of_issues_by_year clock (aggregations issue_buckets) 3
     = Ok (Series l) /\ In (str 2024, VInt 0) l) /\
  (AccessStats._compute_access_lifetime no_int_of_str (VDict [])
   = Raise (KeyError "aggregations") /\
   _compute_documents_languages_by_year clock (VDict []) 3
   = Raise (KeyError "aggregations") /\
   _compute_number_of_articles_by_year clock (VDict []) 3
   = Raise (KeyError "aggregations") /\
   _compute_number_of_issues_by_year clock (VDict []) 3
   = Raise (KeyError "aggregations")).
Proof.
  destruct (missing_keys no_int_of_str clock 3)
    as [H1 [_ [H3 [_ [H5 _]]]]].
  split; [exact (H1 [] eq_refl)|]. split; [|exact (H5 [] eq_refl)].
  apply (H3 (aggregations issue_buckets) issue_buckets 2024
            [("key", VStr "2024"); ("doc_count", VInt 2)]);
    try reflexivity.
  - simpl. lia.
  - now left.
Defined.

(** C3 as stated fails on the empty response: no reducer of an aggregation
    returns a zero-filled result for it, each raises [KeyError]. *)
Lemma empty_response_raises :
  AccessStats._compute_access_lifetime no_int_of_str (VDict [])
  = Raise (KeyError "aggregations") /\
  _compute_documents_languages_by_year clock (VDict []) 3
  = Raise (KeyError "aggregations") /\
  _compute_number_of_articles_by_year clock (VDict []) 3
  = Raise (KeyError "aggregations") /\
  _compute_number_of_issues_by_year clock (VDict []) 0
  = Raise (KeyError "aggregations") /\
  _compute_number_of_issues_by_year clock
    (VDict [("aggregations", VDict [])]) 3
  = Raise (KeyError "publication_year").
Proof. repeat split. Qed.

(** ** No time series *)

(** C4: with [years = 0] both count reducers, and the public methods on top
    of them, return the raw value of the top-level metric of the response
    ([aggregations.id.value], [aggregations.issue.value]) as a scalar,
    never a list of pairs. *)
Theorem years_zero_scalar (today : date) (qr : value) :
  (forall v,
     top_metric "id" qr = Ok v ->
     _compute_number_of_articles_by_year today qr 0 = Ok (Scalar v)) /\
  (forall v,
     top_metric "issue" qr = Ok v ->
     _compute_number_of_issues_by_year today qr 0 = Ok (Scalar v)) /\
  (forall c,
     _compute_number_of_articles_by_year today qr 0 = Ok c ->
     exists v, c = Scalar v /\ top_metric "id" qr = Ok v) /\
  (forall c,
     _compute_number_of_issues_by_year today qr 0 = Ok c ->
     exists v, c = Scalar v /\ top_metric "issue" qr = Ok v) /\
  (forall search issn collection document_types v,
     search "article"
       (number_of_articles_by_year_body issn collection document_types 0)
       [("size", "0")] = Ok qr ->
     top_metric "id" qr = Ok v ->
     number_of_articles_by_year search today issn collection
       document_types 0 = Ok (Scalar v)) /\
  (forall search issn collection type v,
     search "article" (number_of_issues_by_year_body issn collection 0 type)
       [("size", "0")] = Ok qr ->
     top_metric "issue" qr = Ok v ->
     number_of_issues_by_year search today issn collection 0 type
     = Ok (Scalar v)).
Proof.
  assert (A : forall v, top_metric "id" qr = Ok v ->
                        _compute_number_of_articles_by_year today qr 0
                        = Ok (Scalar v)).
  { unfold top_metric, _compute_number_of_articles_by_year. cbn [Z.eqb].
    intros v. destruct (getitem qr "aggregations") as [a|]; [|discriminate].
    cbn [bind]. destruct (getitem a "id") as [i|]; [|discriminate].
    cbn [bind]. now intros ->. }
  assert (B : forall v, top_metric "issue" qr = Ok v ->
                        _compute_number_of_issues_by_year today qr 0
                        = Ok (Scalar v)).
  { unfold top_metric, _compute_number_of_issues_by_year. cbn [Z.eqb].
    intros v. destruct (getitem qr "aggregations") as [a|]; [|discriminate].
    cbn [bind]. destruct (getitem a "issue") as [i|]; [|discriminate].
    cbn [bind]. now intros ->. }
  repeat apply conj; auto.
  - unfold top_metric, _compute_number_of_articles_by_year. cbn [Z.eqb].
    intros c. destruct (getitem qr "aggregations") as [a|]; [|discriminate].
    cbn [bind]. destruct (getitem a "id") as [i|]; [|discriminate].
    cbn [bind]. destruct (getitem i "value") as [v|]; [|discriminate].
    cbn [bind]. intros [= <-]. now exists v.
  - unfold top_metric, _compute_number_of_issues_by_year. cbn [Z.eqb].
    intros c. destruct (getitem qr "aggregations") as [a|]; [|discriminate].
    cbn [bind]. destruct (getitem a "issue") as [i|]; [|discriminate].
    cbn [bind]. destruct (getitem i "value") as [v|]; [|discriminate].
    cbn [bind]. intros [= <-]. now exists v.
  - intros search issn collection document_types v S T.
    unfold number_of_articles_by_year. rewrite S. cbn [bind]. now apply A.
  - intros search issn collection type v S T.
    unfold number_of_issues_by_year. rewrite S. cbn [bind]. now apply B.
Qed.

Lemma years_zero_scalar_witness :
  number_of_articles_by_year
    (answering (VDict [("aggregations", VDict [("id",
                  VDict [("value", VInt 117)])])]))
    clock "0001-3765" "scl" [] 0 = Ok (Scalar (VInt 117)) /\
  _compute_number_of_issues_by_year clock
    (VDict [("aggregations", VDict [("issue",
              VDict [("value", VInt 6)])])]) 0 = Ok (Scalar (VInt 6)).
Proof.
  split.
  - apply (years_zero_scalar clock
             (VDict [("aggregations", VDict [("id",
                       VDict [("value", VInt 117)])])]));
      reflexivity.
  - apply (years_zero_scalar clock
             (VDict [("aggregations", VDict [("issue",
                       VDict [("value", VInt 6)])])]));
      reflexivity.
Defined.

(** ** Languages by year *)

(** C5: whatever the response, every record the language reducer returns
    has the slots [pt], [en], [es], [other] and no other.  For well formed
    buckets, the entry of a window year is the record of that year's (last)
    bucket: the document counts of the language buckets keyed [pt], [en]
    and [es] summed into their slots, those of every other key into
    [other]. *)
Theorem languages_folded (today : date) (qr : value) (n : Z) :
  (forall out,
     _compute_documents_languages_by_year today qr n = Ok out ->
     Forall (fun kv => is_breakdown (snd kv)) out) /\
  (forall items,
     year_buckets qr = Ok items ->
     forallb language_year_bucket items = true ->
     exists out,
       _compute_documents_languages_by_year today qr n = Ok out /\
       forall i item ls,
         year today - n < i <= year today ->
         last_bucket (str i) items = Some item ->
         languages_of item = Some ls ->
         In (str i,
             VDict [("pt", VInt (total (has_key "pt") ls));
                    ("en", VInt (total (has_key "en") ls));
                    ("es", VInt (total (has_key "es") ls));
                    ("other", VInt (total other_language ls))]) out).
Proof.
  split.
  - intros out. apply languages_slots.
  - intros items Y K. eexists. split; [apply (languages_by_year _ _ _ _ Y K)|].
    intros i item ls Hi L E.
    pose proof (series_in breakdown_of (VDict no_langs) items today n i Hi)
      as S.
    rewrite L in S. unfold breakdown_of in S. now rewrite E in S.
Qed.

Lemma languages_folded_witness :
  exists out,
    _compute_documents_languages_by_year clock
      (aggregations language_buckets) 2 = Ok out /\
    In ("2026",
        VDict [("pt", VInt 12); ("en", VInt 3); ("es", VInt 0);
               ("other", VInt 5)]) out.
Proof.
  destruct (languages_folded clock (aggregations language_buckets) 2)
    as [_ H].
  destruct (H language_buckets eq_refl eq_refl) as [out [E F]].
  exists out. split; [exact E|].
  refine (F 2026 _ _ _ eq_refl eq_refl). simpl. lia.
Defined.

(** ** Access lifetime *)

(** C6: for a two-level aggregation response (string bucket keys, every
    metric convertible by [int]) the reducer returns one row per
    (publication-year bucket, access-year bucket) pair, the metrics as
    integers, no row above the next in the order of the rows; as no pair
    occurs twice among the buckets of an aggregation, the rows are sorted
    strictly ascending by publication year, then access year. *)
Theorem access_lifetime_points
  (int_of_str : string -> result Z) (qr : value)
  (pts : list LifetimePoint) :
  lifetime_points int_of_str qr = Some pts ->
  exists out,
    AccessStats._compute_access_lifetime int_of_str qr
    = Ok (map row_of out) /\
    Permutation pts out /\
    Sorted (fun p q => point_compare p q <> Gt) out /\
    (NoDup (map point_key pts) -> StronglySorted key_lt out).
Proof.
  intros L.
  destruct (access_lifetime_sorted int_of_str qr pts L) as [out [E [P S]]].
  exists out. repeat split; [exact E | exact P | |].
  - clear - S. induction S as [|p out S IH Hd]; constructor; [exact IH|].
    destruct Hd as [|q out Hq]; constructor.
    rewrite lt_rows, (point_compare_antisym p q) in Hq.
    destruct (point_compare p q); simpl in Hq; congruence.
  - intros ND.
    assert (NDo : NoDup (map point_key out))
      by (eapply Permutation_NoDup; [apply Permutation_map, P | exact ND]).
    apply Sorted_StronglySorted; [exact key_lt_trans|].
    eapply Sorted_strengthen; [eapply NoDup_map_inv, NDo | | exact S].
    intros p q Hp Hq Npq H. apply rows_key_lt; [exact H|].
    intros E'. apply Npq. eapply nodup_map_inj; eassumption.
Qed.

Lemma access_lifetime_points_witness :
  exists out,
    AccessStats._compute_access_lifetime no_int_of_str
      (aggregations lifetime_buckets) = Ok (map row_of out) /\
    Permutation
      [{| publication_year := "2021"; access_year := "2022";
          html_count := 2; abstract_count := 0; pdf_count := 1;
          epdf_count := 0; total_count := 3 |};
       {| publication_year := "2021"; access_year := "2021";
          html_count := 1; abstract_count := 0; pdf_count := 0;
          epdf_count := 0; total_count := 1 |};
       {| publication_year := "2020"; access_year := "2021";
          html_count := 3; abstract_count := 0; pdf_count := 0;
          epdf_count := 0; total_count := 7 |}] out /\
    StronglySorted key_lt out.
Proof.
  destruct (access_lifetime_points no_int_of_str
              (aggregations lifetime_buckets) _ eq_refl)
    as [out [E [P [_ S]]]].
  exists out. split; [exact E|]. split; [exact P|].
  apply S. simpl. repeat constructor; simpl; intuition discriminate.
Defined.

(** ** Document lookup *)

Lemma get_source (f : pydict) :
  get (VDict f) "_source" VNone = Ok (source_of (VDict f)).
Proof. unfold get, source_of. now destruct (dict_get "_source" f). Qed.

(** C7, as amended: for a response whose [hits.hits] is a list of records,
    both lookups return [None] when the list is empty and the first hit's
    [_source] unchanged otherwise, [None] standing in when that hit has no
    [_source].  So [None] is returned exactly when the list is empty or the
    first hit has no [_source] (or a null one), and [None] is not a record,
    whatever the record's fields. *)
Theorem document_lookup (qr : value) (l : list value) :
  hit_list qr = Some l ->
  (forall hit rest, l = hit :: rest -> exists f, hit = VDict f) ->
  let found :=
    match l with
    | [] => VNone
    | hit :: _ => source_of hit
    end in
  _compute_first_included_document_by_journal qr = Ok found /\
  _compute_last_included_document_by_journal qr = Ok found /\
  (found = VNone <->
   l = [] \/ exists hit rest, l = hit :: rest /\ source_of hit = VNone) /\
  (forall fields, found = VDict fields -> found <> VNone).
Proof.
  intros H D found.
  rewrite (first_included_document _ _ H), (last_included_document _ _ H).
  subst found. destruct l as [|hit rest].
  - repeat split; auto; congruence.
  - destruct (D hit rest eq_refl) as [f ->]. rewrite get_source.
    repeat split; try congruence.
    + intros E. right. now exists (VDict f), rest.
    + intros [E|[h [r [E S]]]]; [discriminate | now inversion E; subst].
Qed.

Lemma document_lookup_witness :
  _compute_first_included_document_by_journal
    (hits [VDict [("_id", VStr "a1"); ("_source", document)]])
  = Ok document /\
  _compute_last_included_document_by_journal (hits []) = Ok VNone.
Proof.
  split.
  - apply (document_lookup
             (hits [VDict [("_id", VStr "a1"); ("_source", document)]])
             [VDict [("_id", VStr "a1"); ("_source", document)]] eq_refl).
    intros hit rest [= <- _]. now eexists.
  - apply (document_lookup (hits []) [] eq_refl). discriminate.
Defined.

(** C7 as stated fails: with one hit that has no [_source] the hit list is
    not empty, and both lookups still return [None]. *)
Lemma absent_with_a_hit :
  hit_list (hits [VDict [("_id", VStr "a1")]])
  = Some [VDict [("_id", VStr "a1")]] /\
  ~ (_compute_first_included_document_by_journal
       (hits [VDict [("_id", VStr "a1")]]) = Ok VNone <->
     hit_list (hits [VDict [("_id", VStr "a1")]]) = Some []) /\
  ~ (_compute_last_included_document_by_journal
       (hits [VDict [("_id", VStr "a1")]]) = Ok VNone <->
     hit_list (hits [VDict [("_id", VStr "a1")]]) = Some []).
Proof.
  split; [reflexivity|].
  split; intros [H _]; specialize (H eq_refl); discriminate H.
Qed.

(** C10: when [hits.hits] is not empty and its first hit is a record
    without [_source], both lookups, and the public methods on top of them,
    return [None], the very outcome of an empty hit list. *)
Theorem hit_without_source (qr : value) (f : pydict) (rest : list value) :
  hit_list qr = Some (VDict f :: rest) ->
  dict_get "_source" f = None ->
  _compute_first_included_document_by_journal qr = Ok VNone /\
  _compute_last_included_document_by_journal qr = Ok VNone /\
  (forall empty,
     hit_list empty = Some [] ->
     _compute_first_included_document_by_journal empty
     = _compute_first_included_document_by_journal qr /\
     _compute_last_included_document_by_journal empty
     = _compute_last_included_document_by_journal qr) /\
  (forall search issn collection,
     search "article" (first_included_document_by_journal_body issn collection)
       [("size", "1")] = Ok qr ->
     first_included_document_by_journal search issn collection = Ok VNone) /\
  (forall search issn collection,
     search "article" (last_included_document_by_journal_body issn collection)
       [("size", "1")] = Ok qr ->
     last_included_document_by_journal search issn collection = Ok VNone).
Proof.
  intros H S.
  assert (A : _compute_first_included_document_by_journal qr = Ok VNone).
  { rewrite (first_included_document _ _ H). unfold get. now rewrite S. }
  assert (B : _compute_last_included_document_by_journal qr = Ok VNone).
  { rewrite (last_included_document _ _ H). unfold get. now rewrite S. }
  repeat apply conj; auto.
  - intros empty E.
    now rewrite (first_included_document _ _ E),
      (last_included_document _ _ E), A, B.
  - intros search issn collection Q.
    unfold first_included_document_by_journal. now rewrite Q.
  - intros search issn collection Q.
    unfold last_included_document_by_journal. now rewrite Q.
Qed.

Lemma hit_without_source_witness :
  _compute_first_included_document_by_journal
    (hits [VDict [("_id", VStr "a1")]]) = Ok VNone /\
  last_included_document_by_journal
    (answering (hits [VDict [("_id", VStr "a1")]])) "0001-3765" "scl"
  = Ok VNone.
Proof.
  destruct (hit_without_source (hits [VDict [("_id", VStr "a1")]])
              [("_id", VStr "a1")] [] eq_refl eq_refl)
    as [A [_ [_ [_ B]]]].
  split; [exact A|]. now apply B.
Defined.

(** ** Reruns *)

(** C8: a reduction depends on the clock through its year only.  Two runs
    of any of the six reductions on the same response and [years], at two
    readings of the clock within one year, give the same outcome, result or
    exception. *)
Theorem rerun_same_outcome
  (int_of_str : string -> result Z) (r : reduction)
  (first second : date) (qr : value) (years : Z) :
  year first = year second ->
  run int_of_str r first qr years = run int_of_str r second qr years.
Proof.
  intros Y.
  assert (W : forall zero, window first years zero = window second years zero)
    by (intros zero; unfold window; now rewrite Y).
  destruct r; unfold run; try reflexivity.
  - unfold _compute_documents_languages_by_year. now rewrite W.
  - unfold _compute_number_of_articles_by_year. now rewrite W.
  - unfold _compute_number_of_issues_by_year. now rewrite W.
Qed.

Lemma rerun_same_outcome_witness :
  run no_int_of_str NumberOfIssuesByYear (mkdate 2026 1 1)
    (aggregations issue_buckets) 3
  = run no_int_of_str NumberOfIssuesByYear (mkdate 2026 12 31)
      (aggregations issue_buckets) 3.
Proof.
  apply (rerun_same_outcome no_int_of_str NumberOfIssuesByYear
           (mkdate 2026 1 1) (mkdate 2026 12 31)).
  reflexivity.
Defined.

(** ** No window *)

(** C9: with [years = 0] the window is empty and stays empty, so the
    language reducer returns the empty mapping whenever it returns, and it
    does return for every response whose year buckets have a key; the
    query sent asks for [size] 0, every bucket, all the same. *)
Theorem no_years_no_languages (today : date) (qr : value) :
  (forall out,
     _compute_documents_languages_by_year today qr 0 = Ok out -> out = []) /\
  (forall items,
     year_buckets qr = Ok items -> forallb keyed items = true ->
     _compute_documents_languages_by_year today qr 0 = Ok []) /\
  (forall issn collection,
     year_buckets_size (documents_languages_by_year_body issn collection 0)
     = Ok (VInt 0)) /\
  (forall search issn collection items,
     search "article" (documents_languages_by_year_body issn collection 0)
       [("size", "0")] = Ok qr ->
     year_buckets qr = Ok items -> forallb keyed items = true ->
     documents_languages_by_year search today issn collection 0 = Ok []).
Proof.
  assert (A : forall items,
            year_buckets qr = Ok items -> forallb keyed items = true ->
            _compute_documents_languages_by_year today qr 0 = Ok []).
  { intros items Y K. unfold _compute_documents_languages_by_year.
    rewrite Y, window_empty by lia. cbn [bind].
    rewrite (for_each_ext _ (year_step languages_entry))
      by (intros; apply languages_year_step_eq).
    now apply year_step_keyed_empty. }
  repeat apply conj.
  - intros out. unfold _compute_documents_languages_by_year.
    rewrite window_empty by lia.
    destruct (year_buckets qr) as [items|]; cbn [bind]; [|discriminate].
    apply (for_each_invariant (fun d => d = [])); [|reflexivity].
    intros s x s' ->. apply languages_year_step_empty.
  - exact A.
  - reflexivity.
  - intros search issn collection items S Y K.
    unfold documents_languages_by_year. rewrite S. cbn [bind]. now apply (A items).
Qed.

Lemma no_years_no_languages_witness :
  documents_languages_by_year (answering (aggregations language_buckets))
    clock "0001-3765" "scl" 0 = Ok [].
Proof.
  apply (no_years_no_languages clock (aggregations language_buckets))
    with (items := language_buckets); reflexivity.
Defined.

(** * The tabulation scripts *)

Import Text Document Samples.

(** ** Quoted rows *)

Lemma for_each_snoc {A B} (f : A -> result B) (xs : list A) :
  forall acc r,
    for_each (fun acc x => y <- f x ;; Ok (acc ++ [y])%list) xs acc = Ok r ->
    exists ys, r = (acc ++ ys)%list /\ List.length ys = List.length xs /\
               Forall2 (fun x y => f x = Ok y) xs ys.
Proof.
  induction xs as [|x xs IH]; intros acc r; simpl.
  - intros [= <-]. exists []. rewrite app_nil_r. repeat split. constructor.
  - destruct (f x) as [y|] eqn:E; simpl; [|discriminate].
    intros H. destruct (IH _ _ H) as [ys [-> [L F]]].
    exists (y :: ys). rewrite <- app_assoc. simpl. repeat split.
    + now rewrite L.
    + now constructor.
Qed.

Lemma for_each_snoc_ok {A B} (f : A -> result B) (xs : list A) (ys : list B) :
  Forall2 (fun x y => f x = Ok y) xs ys ->
  forall acc,
    for_each (fun acc x => y <- f x ;; Ok (acc ++ [y])%list) xs acc
    = Ok (acc ++ ys)%list.
Proof.
  induction 1 as [|x y xs ys E F IH]; intros acc; simpl.
  - now rewrite app_nil_r.
  - rewrite E. simpl. rewrite IH, <- app_assoc. reflexivity.
Qed.

Lemma quoted_inv (i : value) (q : string) :
  quoted i = Ok q -> exists s, i = VStr s /\ q = quote_field s.
Proof. destruct i; simpl; try discriminate. intros [= <-]. now eexists. Qed.

Lemma Forall2_quoted (line : list value) (qs : list string) :
  Forall2 (fun i q => quoted i = Ok q) line qs ->
  exists ss, line = map VStr ss /\ qs = map quote_field ss.
Proof.
  induction 1 as [|i q line qs E F [ss [-> ->]]].
  - now exists [].
  - destruct (quoted_inv _ _ E) as [s [-> ->]]. now exists (s :: ss).
Qed.

(** A row is returned for a line of [str] only, and is then the quoted
    fields joined by commas. *)
Lemma quote_join_inv (line : list value) (row : string) :
  quote_join line = Ok row ->
  exists ss, line = map VStr ss /\ row = join_strs "," (map quote_field ss).
Proof.
  unfold quote_join.
  destruct (for_each _ line []) as [qs|] eqn:E; simpl; [|discriminate].
  intros [= <-]. destruct (for_each_snoc _ _ _ _ E) as [ys [-> [_ F]]].
  simpl. destruct (Forall2_quoted _ _ F) as [ss [-> ->]]. now exists ss.
Qed.

Lemma quote_join_strings (ss : list string) :
  quote_join (map VStr ss) = Ok (join_strs "," (map quote_field ss)).
Proof.
  unfold quote_join.
  rewrite (for_each_snoc_ok quoted (map VStr ss) (map quote_field ss)).
  - reflexivity.
  - induction ss; simpl; constructor; auto.
Qed.

Lemma string_app_assoc (a b c : string) : ((a ++ b) ++ c = a ++ (b ++ c))%string.
Proof. induction a; simpl; congruence. Qed.

Lemma string_app_nil (a : string) : (a ++ "")%string = a.
Proof. induction a; simpl; congruence. Qed.

(** Inside a field the reader takes the doubled quotes of [s] for the
    quotes of [s]. *)
Lemma fields_from_doubled (s field rest : string) :
  Csv.fields_from Csv.Inside field
    (double_quotes s ++ String quote rest)
  = Csv.fields_from Csv.After (field ++ s) rest.
Proof.
  revert field. induction s as [|c s IH]; intros field; simpl.
  - now rewrite string_app_nil.
  - destruct (Ascii.eqb_spec c quote) as [->|N]; simpl.
    + rewrite IH, string_app_assoc. reflexivity.
    + destruct (Ascii.eqb_spec c quote); [contradiction|].
      rewrite IH, string_app_assoc. reflexivity.
Qed.

Lemma fields_from_quoted (s rest : string) :
  Csv.fields_from Csv.Before "" (quote_field s ++ rest)
  = Csv.fields_from Csv.After s rest.
Proof.
  unfold quote_field. simpl.
  rewrite string_app_assoc. simpl. now rewrite fields_from_doubled.
Qed.

Lemma fields_from_comma (s rest : string) :
  Csv.fields_from Csv.After s ("," ++ rest)
  = option_map (cons s) (Csv.fields_from Csv.Before "" rest).
Proof. reflexivity. Qed.

Lemma fields_of_quoted_row (s : string) (ss : list string) :
  Csv.fields (join_strs "," (map quote_field (s :: ss))) = Some (s :: ss).
Proof.
  unfold Csv.fields. revert s. induction ss as [|t ss IH]; intros s.
  - simpl map. simpl join_strs.
    rewrite <- (string_app_nil (quote_field s)), fields_from_quoted.
    reflexivity.
  - change (join_strs "," (map quote_field (s :: t :: ss)))
      with (quote_field s ++ "," ++ join_strs "," (map quote_field (t :: ss)))%string.
    rewrite fields_from_quoted, fields_from_comma, IH. reflexivity.
Qed.

(** ** The columns of a row *)

Section Rows.
Variable THEMATIC_AREAS : list string.
Variable lower : string -> string.
Variable now : string.
Variable int_of_str : string -> result Z.

Lemma thematic_flags_length (data : Article) (flags : list value) :
Dump.thematic_flags THEMATIC_AREAS lower data = Ok flags ->
List.length flags = List.length THEMATIC_AREAS.
Proof.
unfold Dump.thematic_flags. intros H.
destruct (for_each_snoc _ _ _ _ H) as [ys [-> [L _]]]. exact L.
Qed.

Lemma leading_names_length :
List.length (Dump.leading_names THEMATIC_AREAS lower)
= (11 + List.length THEMATIC_AREAS)%nat.
Proof.
unfold Dump.leading_names. rewrite !length_app, length_map. simpl. lia.
Qed.

Lemma counts_header_length :
List.length (Counts.header THEMATIC_AREAS lower)
= (21 + List.length THEMATIC_AREAS)%nat.
Proof.
unfold Counts.header.
rewrite (length_app (Dump.leading_names THEMATIC_AREAS lower)),
  leading_names_length.
simpl. lia.
Qed.

Lemma licenses_header_length :
List.length (Licenses.header THEMATIC_AREAS lower)
= (12 + List.length THEMATIC_AREAS)%nat.
Proof.
unfold Licenses.header.
rewrite (length_app (Dump.leading_names THEMATIC_AREAS lower)),
  leading_names_length.
simpl. lia.
Qed.

Lemma leading_fields_length (data : Article) (lead : list value) :
Dump.leading_fields THEMATIC_AREAS lower now data = Ok lead ->
List.length lead = (11 + List.length THEMATIC_AREAS)%nat.
Proof.
unfold Dump.leading_fields.
destruct (join ";" (VList (Dump.issns_of data))) as [issns|]; simpl;
  [|discriminate].
destruct (join ";" (subject_areas (journal data))) as [areas|]; simpl;
  [|discriminate].
destruct (Dump.thematic_flags THEMATIC_AREAS lower data) as [flags|] eqn:F;
  simpl; [|discriminate].
destruct (slice_to 4 (publication_date data)) as [year|]; simpl;
  [|discriminate].
intros [= <-]. simpl. rewrite !length_app, (thematic_flags_length _ _ F).
simpl. lia.
Qed.

Lemma len_nonneg (obj : value) (n : Z) : len obj = Ok n -> 0 <= n.
Proof. destruct obj; simpl; try discriminate; intros [= <-]; lia. Qed.

(** The line of [counts.fmt_csv]: the leading fields, then ten counts. *)
Lemma counts_line_inv (data : Article) (l : list value) :
Counts.line THEMATIC_AREAS lower now int_of_str data = Ok l ->
exists lead n refs,
  Dump.leading_fields THEMATIC_AREAS lower now data = Ok lead /\
  len (or_else (authors data) (VList [])) = Ok n /\
  len (or_else (citations data) (VList [])) = Ok refs /\
  l = (lead
       ++ [VStr (str n);
           Counts.flag (n =? 0); Counts.flag (n =? 1); Counts.flag (n =? 2);
           Counts.flag (n =? 3); Counts.flag (n =? 4); Counts.flag (n =? 5);
           Counts.flag (6 <=? n);
           VStr (str (Counts.pages int_of_str (start_page data)
                        (end_page data)));
           VStr (str refs)])%list.
Proof.
unfold Counts.line.
destruct (Counts.countries lower data); simpl; [|discriminate].
destruct (len (or_else (authors data) (VList []))) as [n|]; simpl;
  [|discriminate].
destruct (Dump.leading_fields THEMATIC_AREAS lower now data) as [lead|];
  simpl; [|discriminate].
destruct (len (or_else (citations data) (VList []))) as [refs|]; simpl;
  [|discriminate].
intros [= <-]. now exists lead, n, refs.
Qed.

Lemma licenses_line_inv (data : Article) (l : list value) :
Licenses.line THEMATIC_AREAS lower now data = Ok l ->
exists lead perm,
  Dump.leading_fields THEMATIC_AREAS lower now data = Ok lead /\
  Licenses.license data = Ok perm /\
  l = (lead ++ [perm])%list.
Proof.
unfold Licenses.line.
destruct (Dump.leading_fields THEMATIC_AREAS lower now data) as [lead|];
  simpl; [|discriminate].
destruct (Licenses.license data) as [perm|]; simpl; [|discriminate].
intros [= <-]. now exists lead, perm.
Qed.

Lemma flag_eq (b c : bool) :
b = c -> Counts.flag b = VStr (if c then "1" else "0").
Proof. now intros ->. Qed.

Lemma app_not_nil {A} (l : list A) (x : A) (r : list A) :
(l ++ x :: r)%list <> [].
Proof. intros N. apply app_eq_nil in N as [_ N]. discriminate N. Qed.

(** A row that is written reads back as the fields of its line. *)
Lemma row_fields (l : list value) (row : string) :
l <> [] -> quote_join l = Ok row ->
exists fs, l = map VStr fs /\ Csv.fields row = Some fs.
Proof.
intros N H. destruct (quote_join_inv _ _ H) as [ss [-> ->]].
exists ss. split; [reflexivity|].
destruct ss as [|s ss]; [contradiction|]. apply fields_of_quoted_row.
Qed.

Lemma nth_error_strings (fs : list string) (l : list value) (k : nat)
(s : string) :
l = map VStr fs -> nth_error l k = Some (VStr s) -> nth_error fs k = Some s.
Proof.
intros -> H. rewrite nth_error_map in H.
destruct (nth_error fs k); simpl in H; congruence.
Qed.
End Rows.

(** ** Loops that stop *)

Lemma for_each_app {A S} (body : S -> A -> result S) (xs ys : list A) (s : S) :
  for_each body (xs ++ ys) s = (s' <- for_each body xs s ;; for_each body ys s').
Proof.
  revert s. induction xs as [|x xs IH]; intros s; simpl; [reflexivity|].
  destruct (body s x); simpl; [apply IH | reflexivity].
Qed.

(** A line that ends in a field that is no [str] gives no row. *)
Lemma quote_join_last_not_str (ss : list string) (v : value) :
  (forall s, v <> VStr s) ->
  quote_join (map VStr ss ++ [v]) = Raise AttributeError.
Proof.
  intros N. unfold quote_join. rewrite for_each_app.
  rewrite (for_each_snoc_ok quoted (map VStr ss) (map quote_field ss))
    by (induction ss; simpl; constructor; auto).
  simpl. destruct v; try reflexivity. now destruct (N s).
Qed.

Lemma items_map (fmt_csv : Article -> result string)
  (documents : value -> value -> list Article) (collection : value)
  (issns : list value) :
  Dump.items fmt_csv documents collection issns
  = map fmt_csv
      (flat_map (documents collection)
         (match issns with [] => [VNone] | _ :: _ => issns end)).
Proof.
  unfold Dump.items.
  generalize (match issns with [] => [VNone] | _ :: _ => issns end).
  intros l. induction l as [|i l IH]; simpl; [reflexivity|].
  now rewrite map_app, IH.
Qed.

Lemma run_rows (to_file : bool) (fmt_csv : Article -> result string)
  (docs : list Article) (rows : list string) :
  Forall2 (fun d r => fmt_csv d = Ok r) docs rows ->
  forall rest out,
    Dump.run to_file (map fmt_csv docs ++ rest) out
    = Dump.run to_file rest (out ++ map (Dump.write to_file) rows).
Proof.
  induction 1 as [|d r docs rows E F IH]; intros rest out; simpl.
  - now rewrite app_nil_r.
  - rewrite E, IH, <- app_assoc. reflexivity.
Qed.

(** ** The header line *)

Lemma commas_app (a b : string) :
  Csv.commas (a ++ b) = (Csv.commas a + Csv.commas b)%nat.
Proof. induction a as [|c a IH]; simpl; [reflexivity|]. rewrite IH. lia. Qed.

Lemma commas_join (l : list string) :
  Csv.commas (join_strs "," l)
  = (list_sum (map Csv.commas l) + (List.length l - 1))%nat.
Proof.
  induction l as [|x l IH]; [reflexivity|].
  destruct l as [|y l].
  - simpl. lia.
  - change (join_strs "," (x :: y :: l))
      with (x ++ "," ++ join_strs "," (y :: l))%string.
    rewrite !commas_app, IH. simpl. lia.
Qed.

Lemma list_sum_app (l m : list nat) :
  list_sum (l ++ m) = (list_sum l + list_sum m)%nat.
Proof. induction l; simpl; lia. Qed.

Lemma leading_names_commas (areas : list string) (lower : string -> string) :
  list_sum (map Csv.commas (Dump.leading_names areas lower))
  = list_sum (map (fun a => Csv.commas (lower a)) areas).
Proof.
  unfold Dump.leading_names.
  rewrite !map_app, !list_sum_app, map_map. simpl. rewrite Nat.add_0_r.
  reflexivity.
Qed.

(** ** More on the year buckets *)

Lemma last_bucket_filter (p : value -> bool) (s : string) (items : list value) :
  (forall item, has_key s item = true -> p item = true) ->
  last_bucket s (filter p items) = last_bucket s items.
Proof.
  intros H. induction items as [|x xs IH]; simpl; [reflexivity|].
  destruct (p x) eqn:P; simpl; rewrite IH; [reflexivity|].
  destruct (last_bucket s xs); [reflexivity|].
  destruct (has_key s x) eqn:K; [|reflexivity].
  rewrite (H x K) in P. discriminate.
Qed.

Lemma series_filter (g : value -> value) (zero : value) (items : list value)
  (today : date) (n : Z) :
  series g zero (filter (in_window today n) items) today n
  = series g zero items today n.
Proof.
  unfold series. apply map_ext_in. intros i Hi. f_equal.
  rewrite last_bucket_filter; [reflexivity|].
  intros item K. unfold in_window. apply existsb_exists. now exists i.
Qed.

Lemma forallb_filter {A} (p q : A -> bool) (l : list A) :
  forallb p l = true -> forallb p (filter q l) = true.
Proof.
  rewrite !forallb_forall. intros H x Hx. apply filter_In in Hx as [Hx _].
  now apply H.
Qed.

(** What the count reducers compute when a time series is asked for. *)
Lemma articles_normal (today : date) (qr : value) (n : Z)
  (items : list value) :
  n <> 0 -> year_buckets qr = Ok items -> forallb keyed items = true ->
  _compute_number_of_articles_by_year today qr n
  = (l <- sorted_items (series doc_count_of (VInt 0) items today n) ;;
     Ok (Series l)).
Proof.
  intros N Y K. unfold _compute_number_of_articles_by_year.
  destruct (Z.eqb_spec n 0) as [|_]; [contradiction|].
  rewrite Y. cbn [bind].
  rewrite (for_each_ext _ (year_step articles_entry))
    by (intros; apply articles_year_step_eq).
  rewrite (year_loop_window articles_entry doc_count_of); [reflexivity | exact K |].
  intros item Hin. apply articles_entry_ok. eapply forallb_In; eassumption.
Qed.

Lemma issues_normal (today : date) (qr : value) (n : Z)
  (items : list value) :
  n <> 0 -> year_buckets qr = Ok items -> forallb issue_bucket items = true ->
  _compute_number_of_issues_by_year today qr n
  = (l <- sorted_items (series (nested_metric "issue") (VInt 0) items
                          today n) ;;
     Ok (Series l)).
Proof.
  intros N Y K. unfold _compute_number_of_issues_by_year.
  destruct (Z.eqb_spec n 0) as [|_]; [contradiction|].
  rewrite Y. cbn [bind].
  rewrite (for_each_ext _ (year_step issues_entry))
    by (intros; apply issues_year_step_eq).
  rewrite (year_loop_window issues_entry (nested_metric "issue"));
    [reflexivity | now apply issue_bucket_keyed |].
  intros item Hin. apply issues_entry_ok. eapply forallb_In; eassumption.
Qed.

(** The slots of a record add up to the documents of the buckets. *)
Lemma total_split (ls : list value) :
  total (has_key "pt") ls + total (has_key "en") ls
  + total (has_key "es") ls + total other_language ls
  = total (fun _ => true) ls.
Proof.
  induction ls as [|l ls IH]; [reflexivity|]. cbn [total].
  assert (E : forall z : Z,
    (if has_key "pt" l then z else 0) + (if has_key "en" l then z else 0)
    + (if has_key "es" l then z else 0) + (if other_language l then z else 0)
    = z).
  { intros z. unfold other_language, has_key.
    destruct (getitem l "key") as [k|]; [destruct k|]; try (simpl; lia).
    destruct (String.eqb_spec "pt" s) as [<-|]; [simpl; lia|].
    destruct (String.eqb_spec "en" s) as [<-|]; [simpl; lia|].
    destruct (String.eqb_spec "es" s) as [<-|]; simpl; lia. }
  specialize (E (match doc_count l with Some z => z | None => 0 end)).
  lia.
Qed.

(** The loop raises what the first bucket without a usable key raises. *)
Lemma year_loop_aborts (f : value -> result value) (g : value -> value)
  (good rest : list value) (bad : value) (d : pydict) (e : exn) :
  NoDup (map fst d) ->
  forallb keyed good = true ->
  (forall item, In item good -> f item = Ok (g item)) ->
  (k <- getitem bad "key" ;; dict_key k) = Raise e ->
  for_each (year_step f) (good ++ bad :: rest) d = Raise e.
Proof.
  intros ND K F B. rewrite for_each_app.
  rewrite (year_loop f g) by (auto; intros; now apply F).
  cbn [bind for_each]. unfold year_step at 1.
  destruct (getitem bad "key") as [k|]; cbn [bind] in *.
  - rewrite B. reflexivity.
  - now injection B as ->.
Qed.

(** ** What the tabulations guarantee *)

(** X1: [pages] is the distance from the first page to the last when both
    convert to an int and the last is not before the first; it is 0 when a
    conversion raises or the last page comes first, and never negative. *)
Theorem pages_between
  (int_of_str : string -> result Z) (first last : value) :
  0 <= Counts.pages int_of_str first last /\
  (forall f l,
     AccessStats.int int_of_str first = Ok f ->
     AccessStats.int int_of_str last = Ok l ->
     Counts.pages int_of_str first last = Z.max 0 (l - f)) /\
  (forall e,
     AccessStats.int int_of_str first = Raise e \/
     AccessStats.int int_of_str last = Raise e ->
     Counts.pages int_of_str first last = 0).
Proof.
  unfold Counts.pages. repeat split.
  - destruct (AccessStats.int int_of_str last) as [l|]; simpl;
      [destruct (AccessStats.int int_of_str first) as [f|]; simpl|];
      try reflexivity.
    destruct (Z.leb_spec 0 (l - f)); lia.
  - intros f l -> ->. simpl. destruct (Z.leb_spec 0 (l - f)); lia.
  - intros e [->| ->]; [destruct (AccessStats.int int_of_str last)|];
      reflexivity.
Qed.

Lemma pages_between_witness :
  Counts.pages digits_int (VStr "10") (VStr "25") = Z.max 0 (25 - 10) /\
  Counts.pages digits_int (VStr "10") (VStr "e1203") = 0.
Proof.
  split.
  - apply (pages_between digits_int (VStr "10") (VStr "25")); reflexivity.
  - apply (pages_between digits_int (VStr "10") (VStr "e1203"))
      with (e := ValueError).
    right. reflexivity.
Defined.

(** X2: the quoting of a row loses nothing.  Two lines never give the same
    row, and a reader of quoted fields gets back exactly the fields that
    were written, whatever commas, quotes or line ends they hold; a line
    with a field that is no [str] gives no row at all. *)
Theorem quoted_row_reads_back :
  (forall s ss,
     exists row, quote_join (map VStr (s :: ss)) = Ok row /\
                 Csv.fields row = Some (s :: ss)) /\
  (forall l1 l2 row,
     quote_join l1 = Ok row -> quote_join l2 = Ok row -> l1 = l2) /\
  (forall line row,
     quote_join line = Ok row -> exists fs, line = map VStr fs).
Proof.
  repeat split.
  - intros s ss. eexists. split; [apply quote_join_strings|].
    apply fields_of_quoted_row.
  - intros l1 l2 row H1 H2.
    destruct (quote_join_inv _ _ H1) as [s1 [-> E1]].
    destruct (quote_join_inv _ _ H2) as [s2 [-> E2]].
    f_equal. destruct s1 as [|a s1], s2 as [|b s2]; try reflexivity.
    + pose proof (fields_of_quoted_row b s2) as F. rewrite <- E2, E1 in F.
      discriminate F.
    + pose proof (fields_of_quoted_row a s1) as F. rewrite <- E1, E2 in F.
      discriminate F.
    + pose proof (fields_of_quoted_row a s1) as F1.
      pose proof (fields_of_quoted_row b s2) as F2.
      rewrite <- E1 in F1. rewrite <- E2 in F2. congruence.
  - intros line row H. destruct (quote_join_inv _ _ H) as [ss [-> _]].
    now exists ss.
Qed.

Lemma quoted_row_reads_back_witness :
  quote_join [VStr "a"; VNone] <> Ok "x" /\
  exists row,
    quote_join [VStr ("Letters, " ++ String quote "Arts"); VStr ""] = Ok row /\
    Csv.fields row = Some [("Letters, " ++ String quote "Arts")%string; ""].
Proof.
  destruct quoted_row_reads_back as [A [_ C]]. split.
  - intros H. destruct (C _ _ H) as [[|a [|b fs]] E]; discriminate E.
  - apply (A ("Letters, " ++ String quote "Arts")%string [""]).
Defined.

(** X3: every row has as many fields as the header has names: 21 and one
    per thematic area for the counts, 12 and one per thematic area for the
    licences. *)
Theorem rows_as_wide_as_header
  (THEMATIC_AREAS : list string) (lower : string -> string) (now : string)
  (int_of_str : string -> result Z) (data : Article) (row : string) :
  (Counts.fmt_csv THEMATIC_AREAS lower now int_of_str data = Ok row ->
   exists fs,
     Csv.fields row = Some fs /\
     List.length fs = List.length (Counts.header THEMATIC_AREAS lower) /\
     List.length fs = (21 + List.length THEMATIC_AREAS)%nat) /\
  (Licenses.fmt_csv THEMATIC_AREAS lower now data = Ok row ->
   exists fs,
     Csv.fields row = Some fs /\
     List.length fs = List.length (Licenses.header THEMATIC_AREAS lower) /\
     List.length fs = (12 + List.length THEMATIC_AREAS)%nat).
Proof.
  split.
  - unfold Counts.fmt_csv.
    destruct (Counts.line THEMATIC_AREAS lower now int_of_str data) as [l|]
      eqn:L; cbn [bind]; [|discriminate].
    intros Q.
    destruct (counts_line_inv _ _ _ _ _ _ L) as [lead [n [refs [E [_ [_ ->]]]]]].
    destruct (row_fields _ _ (app_not_nil _ _ _) Q) as [fs [M F]].
    exists fs. split; [exact F|].
    assert (W : List.length fs = (21 + List.length THEMATIC_AREAS)%nat).
    { rewrite <- (length_map VStr fs), <- M, length_app,
        (leading_fields_length _ _ _ _ _ E). simpl. lia. }
    split; [|exact W]. now rewrite counts_header_length.
  - unfold Licenses.fmt_csv.
    destruct (Licenses.line THEMATIC_AREAS lower now data) as [l|] eqn:L;
      cbn [bind]; [|discriminate].
    intros Q.
    destruct (licenses_line_inv _ _ _ _ _ L) as [lead [perm [E [_ ->]]]].
    destruct (row_fields _ _ (app_not_nil _ _ _) Q) as [fs [M F]].
    exists fs. split; [exact F|].
    assert (W : List.length fs = (12 + List.length THEMATIC_AREAS)%nat).
    { rewrite <- (length_map VStr fs), <- M, length_app,
        (leading_fields_length _ _ _ _ _ E). simpl. lia. }
    split; [|exact W]. now rewrite licenses_header_length.
Qed.

Lemma rows_as_wide_as_header_witness :
  exists row fs,
    Counts.fmt_csv areas ascii_lower now digits_int bare_article = Ok row /\
    Csv.fields row = Some fs /\
    List.length fs = 24%nat.
Proof.
  destruct (Counts.fmt_csv areas ascii_lower now digits_int bare_article)
    as [row|] eqn:E; [|discriminate E].
  destruct (rows_as_wide_as_header areas ascii_lower now digits_int
              bare_article row) as [H _].
  destruct (H E) as [fs [F [_ W]]].
  exists row, fs. repeat split; assumption.
Defined.

(** X4: in a row of the counts the column [authors] is the number of
    authors, none for a document without an author list, and exactly one
    of the seven columns from [0 authors] to [+6 authors] holds 1: the one
    of that number, or the last for six authors and more. *)
Theorem author_columns
  (THEMATIC_AREAS : list string) (lower : string -> string) (now : string)
  (int_of_str : string -> result Z) (data : Article) (row : string) :
  Counts.fmt_csv THEMATIC_AREAS lower now int_of_str data = Ok row ->
  exists fs n,
    Csv.fields row = Some fs /\
    len (or_else (authors data) (VList [])) = Ok n /\
    0 <= n /\
    nth_error fs (11 + List.length THEMATIC_AREAS) = Some (str n) /\
    forall k,
      (k < 7)%nat ->
      nth_error fs (12 + List.length THEMATIC_AREAS + k)
      = Some (if Nat.eqb k (Z.to_nat (Z.min n 6)) then "1" else "0").
Proof.
  unfold Counts.fmt_csv.
  destruct (Counts.line THEMATIC_AREAS lower now int_of_str data) as [l|]
    eqn:L; cbn [bind]; [|discriminate].
  intros Q.
  destruct (counts_line_inv _ _ _ _ _ _ L) as [lead [n [refs [E [A [_ Hl]]]]]].
  assert (Nl : l <> []) by (rewrite Hl; apply app_not_nil).
  destruct (row_fields _ _ Nl Q) as [fs [M F]].
  pose proof (len_nonneg _ _ A) as Pn.
  pose proof (leading_fields_length _ _ _ _ _ E) as W.
  exists fs, n. repeat split; auto.
  - apply (nth_error_strings fs l _ _ M). rewrite Hl, nth_error_app2 by lia.
    rewrite W. now replace (_ - _)%nat with 0%nat by lia.
  - intros k Hk. apply (nth_error_strings fs l _ _ M).
    rewrite Hl, nth_error_app2 by lia. rewrite W.
    replace (_ - _)%nat with (S k) by lia.
    do 7 (destruct k as [|k]; [
      cbn [nth_error]; f_equal; apply flag_eq;
      first [ destruct (Z.eqb_spec n 0) | destruct (Z.eqb_spec n 1)
            | destruct (Z.eqb_spec n 2) | destruct (Z.eqb_spec n 3)
            | destruct (Z.eqb_spec n 4) | destruct (Z.eqb_spec n 5)
            | destruct (Z.leb_spec 6 n) ];
      match goal with
      | |- _ = Nat.eqb ?a ?b => destruct (Nat.eqb_spec a b)
      end; try reflexivity; lia |]).
    lia.
Qed.

Lemma author_columns_witness :
  exists row fs,
    Counts.fmt_csv areas ascii_lower now digits_int article = Ok row /\
    Csv.fields row = Some fs /\
    nth_error fs 14 = Some "2" /\
    nth_error fs 17 = Some "1" /\
    nth_error fs 21 = Some "0".
Proof.
  destruct (Counts.fmt_csv areas ascii_lower now digits_int article)
    as [row|] eqn:E; [|discriminate E].
  destruct (author_columns areas ascii_lower now digits_int article row E)
    as [fs [n [F [A [_ [T K]]]]]].
  injection A as <-.
  exists row, fs. repeat split; try assumption.
  - exact (K 2%nat ltac:(lia)).
  - exact (K 6%nat ltac:(lia)).
Defined.

(** X5: the last column of a row of the licences is empty for a document
    without permissions and the [id] of its permissions otherwise. *)
Theorem license_column
  (THEMATIC_AREAS : list string) (lower : string -> string) (now : string)
  (data : Article) (row : string) :
  Licenses.fmt_csv THEMATIC_AREAS lower now data = Ok row ->
  exists fs perm,
    Csv.fields row = Some fs /\
    nth_error fs (11 + List.length THEMATIC_AREAS) = Some perm /\
    (truthy (permissions data) = false -> perm = "") /\
    (truthy (permissions data) = true ->
     getitem (permissions data) "id" = Ok (VStr perm)).
Proof.
  unfold Licenses.fmt_csv.
  destruct (Licenses.line THEMATIC_AREAS lower now data) as [l|] eqn:L;
    cbn [bind]; [|discriminate].
  intros Q.
  destruct (licenses_line_inv _ _ _ _ _ L) as [lead [perm [E [P Hl]]]].
  assert (Nl : l <> []) by (rewrite Hl; apply app_not_nil).
  destruct (row_fields _ _ Nl Q) as [fs [M F]].
  pose proof (leading_fields_length _ _ _ _ _ E) as W.
  assert (Hp : nth_error l (11 + List.length THEMATIC_AREAS) = Some perm).
  { rewrite Hl, nth_error_app2 by lia. rewrite W.
    now replace (_ - _)%nat with 0%nat by lia. }
  assert (Sp : exists s, perm = VStr s).
  { rewrite M, nth_error_map in Hp.
    destruct (nth_error fs _); simpl in Hp; [|discriminate].
    injection Hp as <-. now eexists. }
  destruct Sp as [s ->].
  exists fs, s. repeat split; auto.
  - now apply (nth_error_strings fs l _ _ M).
  - intros T. unfold Licenses.license in P. rewrite T in P. congruence.
  - intros T. unfold Licenses.license in P. rewrite T in P.
    unfold get in P. unfold getitem.
    destruct (permissions data); try discriminate.
    destruct (dict_get "id" d); congruence.
Qed.

Lemma license_column_witness :
  exists row fs,
    Licenses.fmt_csv areas ascii_lower now article = Ok row /\
    Csv.fields row = Some fs /\
    nth_error fs 14 = Some "by/4.0".
Proof.
  destruct (Licenses.fmt_csv areas ascii_lower now article) as [row|] eqn:E;
    [|discriminate E].
  destruct (license_column areas ascii_lower now article row E)
    as [fs [perm [F [N [_ G]]]]].
  specialize (G eq_refl). injection G as <-.
  exists row, fs. repeat split; assumption.
Defined.

(** X6: a document whose permissions hold something but no [id] that is a
    [str] (no [id] at all, or a null one) never gives a row of the
    licences: when the other fields are [str], [fmt_csv] raises
    [AttributeError]. *)
Theorem license_without_id
  (THEMATIC_AREAS : list string) (lower : string -> string) (now : string)
  (data : Article) (v : value) :
  truthy (permissions data) = true ->
  get (permissions data) "id" VNone = Ok v ->
  (forall s, v <> VStr s) ->
  (forall row, Licenses.fmt_csv THEMATIC_AREAS lower now data <> Ok row) /\
  (forall ss,
     Dump.leading_fields THEMATIC_AREAS lower now data = Ok (map VStr ss) ->
     Licenses.fmt_csv THEMATIC_AREAS lower now data = Raise AttributeError).
Proof.
  intros T G N.
  assert (P : Licenses.license data = Ok v)
    by (unfold Licenses.license; now rewrite T).
  split.
  - intros row H. unfold Licenses.fmt_csv in H.
    destruct (Licenses.line THEMATIC_AREAS lower now data) as [l|] eqn:L;
      cbn [bind] in H; [|discriminate].
    destruct (licenses_line_inv _ _ _ _ _ L) as [lead [perm [E [P' ->]]]].
    rewrite P in P'. injection P' as <-.
    destruct (quote_join_inv _ _ H) as [ss [M _]].
    assert (Hin : In v (map VStr ss))
      by (rewrite <- M; apply in_or_app; right; now left).
    apply in_map_iff in Hin as [s [Es _]]. now apply (N s).
  - intros ss E. unfold Licenses.fmt_csv, Licenses.line.
    rewrite E, P. cbn [bind]. now apply quote_join_last_not_str.
Qed.

Lemma license_without_id_witness :
  Licenses.fmt_csv areas ascii_lower now unlicensed_article
  = Raise AttributeError.
Proof.
  assert (N : forall s, VNone <> VStr s) by discriminate.
  exact (proj2 (license_without_id areas ascii_lower now unlicensed_article
                  VNone eq_refl eq_refl N)
           ["2026-11-04"; "documents"; "scl"; "0001-3765";
            "0001-3765;1678-2690";
            "Anais da Academia Brasileira de Ciencias";
            "Health Sciences;HUMAN SCIENCES"; "1"; "1"; "0"; "current";
            "S0001-37652016000100011"; "2016"; "research-article"]
           eq_refl).
Defined.

(** X7: a journal whose subject areas cannot be iterated, [None] for one,
    gives no row in either tabulation: [fmt_csv] raises for each of its
    documents, the [TypeError] of the join when the ISSNs are [str]. *)
Theorem journal_without_subject_areas
  (THEMATIC_AREAS : list string) (lower : string -> string) (now : string)
  (int_of_str : string -> result Z) (data : Article) (e : exn) :
  iter (subject_areas (journal data)) = Raise e ->
  (forall row,
     Counts.fmt_csv THEMATIC_AREAS lower now int_of_str data <> Ok row) /\
  (forall row, Licenses.fmt_csv THEMATIC_AREAS lower now data <> Ok row) /\
  (forall issns,
     join ";" (VList (Dump.issns_of data)) = Ok issns ->
     Licenses.fmt_csv THEMATIC_AREAS lower now data = Raise e).
Proof.
  intros I.
  assert (J : join ";" (subject_areas (journal data)) = Raise e)
    by (unfold join; now rewrite I).
  assert (L : forall lead,
            Dump.leading_fields THEMATIC_AREAS lower now data <> Ok lead).
  { intros lead. unfold Dump.leading_fields. rewrite J.
    now destruct (join ";" (VList (Dump.issns_of data))). }
  repeat split.
  - intros row H. unfold Counts.fmt_csv in H.
    destruct (Counts.line THEMATIC_AREAS lower now int_of_str data) as [l|]
      eqn:E; cbn [bind] in H; [|discriminate].
    destruct (counts_line_inv _ _ _ _ _ _ E) as [lead [_ [_ [E' _]]]].
    now apply (L lead).
  - intros row H. unfold Licenses.fmt_csv in H.
    destruct (Licenses.line THEMATIC_AREAS lower now data) as [l|] eqn:E;
      cbn [bind] in H; [|discriminate].
    destruct (licenses_line_inv _ _ _ _ _ E) as [lead [_ [E' _]]].
    now apply (L lead).
  - intros issns Ji.
    unfold Licenses.fmt_csv, Licenses.line, Dump.leading_fields.
    now rewrite Ji, J.
Qed.

Lemma journal_without_subject_areas_witness :
  Licenses.fmt_csv areas ascii_lower now
    {| journal := {| print_issn := VNone; electronic_issn := VNone;
                     scielo_issn := VStr "0001-3765"; title := VStr "Anais";
                     subject_areas := VNone;
                     current_status := VStr "current" |};
       collection_acronym := VStr "scl"; publisher_id := VStr "S1";
       publication_date := VStr "2016"; document_type := VStr "editorial";
       normalized_affiliations := VNone; authors := VNone;
       start_page := VNone; end_page := VNone; citations := VNone;
       permissions := VNone |}
  = Raise TypeError.
Proof.
  eapply (journal_without_subject_areas areas ascii_lower now digits_int);
    reflexivity.
Defined.

(** X8: a run writes the header, then one row per document, in the order
    of the ISSNs given (one request for every journal when none is given)
    and of the documents of each, a line of the output file ending in
    CR LF.  The first document that cannot be formatted ends the run with
    its exception: the rows before it are written, no row after it is. *)
Theorem run_writes_until_failure
  (names : list string) (fmt_csv : Article -> result string)
  (documents : value -> value -> list Article) (collection : value)
  (issns : list value) (to_file : bool) :
  let docs :=
    flat_map (documents collection)
      (match issns with [] => [VNone] | _ :: _ => issns end) in
  let written (rows : list string) :=
    map (fun line => if to_file then Written (line ++ crlf)
                     else Printed line)
        (join_strs "," names :: rows) in
  (forall rows,
     Forall2 (fun d r => fmt_csv d = Ok r) docs rows ->
     Dump.dump names fmt_csv documents collection issns to_file
     = (written rows, Ok tt)) /\
  (forall good bad rest rows e,
     docs = (good ++ bad :: rest)%list ->
     Forall2 (fun d r => fmt_csv d = Ok r) good rows ->
     fmt_csv bad = Raise e ->
     Dump.dump names fmt_csv documents collection issns to_file
     = (written rows, Raise e)).
Proof.
  intros docs written. unfold Dump.dump. rewrite items_map. fold docs.
  split.
  - intros rows F.
    rewrite <- (app_nil_r (map fmt_csv docs)), (run_rows _ _ _ _ F).
    reflexivity.
  - intros good bad rest rows e -> F B.
    rewrite map_app, (run_rows _ _ _ _ F). simpl. rewrite B. reflexivity.
Qed.

Lemma run_writes_until_failure_witness :
  exists first,
    Licenses.fmt_csv areas ascii_lower now article = Ok first /\
    Licenses.dump areas ascii_lower now
      (documents_of [article; unlicensed_article; bare_article])
      (VStr "scl") [] true
    = ([Written (join_strs "," (Licenses.header areas ascii_lower) ++ crlf);
        Written (first ++ crlf)],
       Raise AttributeError).
Proof.
  destruct (Licenses.fmt_csv areas ascii_lower now article) as [first|] eqn:E;
    [|discriminate E].
  exists first. split; [reflexivity|].
  destruct (run_writes_until_failure (Licenses.header areas ascii_lower)
              (Licenses.fmt_csv areas ascii_lower now)
              (documents_of [article; unlicensed_article; bare_article])
              (VStr "scl") [] true) as [_ H].
  apply (H [article] unlicensed_article [bare_article] [first]).
  - reflexivity.
  - repeat constructor. exact E.
  - reflexivity.
Defined.

(** X9: the header is joined by commas without quotes.  It holds one
    comma less than it has names, and one more for every comma in the
    lowered name of a thematic area: cut at its commas it has as many
    parts as a row has fields only when no such name holds a comma. *)
Theorem header_commas (THEMATIC_AREAS : list string)
  (lower : string -> string) :
  let inside :=
    list_sum (map (fun area => Csv.commas (lower area)) THEMATIC_AREAS) in
  Csv.commas (join_strs "," (Counts.header THEMATIC_AREAS lower))
  = (20 + List.length THEMATIC_AREAS + inside)%nat /\
  Csv.commas (join_strs "," (Licenses.header THEMATIC_AREAS lower))
  = (11 + List.length THEMATIC_AREAS + inside)%nat.
Proof.
  intros inside. split.
  - rewrite commas_join, counts_header_length. unfold Counts.header.
    rewrite map_app, list_sum_app, leading_names_commas. simpl. fold inside.
    lia.
  - rewrite commas_join, licenses_header_length. unfold Licenses.header.
    rewrite map_app, list_sum_app, leading_names_commas. simpl. fold inside.
    lia.
Qed.

(** ** More on the clients *)

(** X10: [access_lifetime] runs the reduction whatever [raw] is.  With
    [raw] set it returns the response of the backend untouched when the
    reduction of that response succeeds, and raises what the reduction
    raises when it does not. *)
Theorem raw_still_reduces
  (int_of_str : string -> result Z)
  (search : value -> list (string * string) -> result value)
  (issn collection : string) (qr : value) :
  search (AccessStats.access_lifetime_body issn collection) [("size", "0")]
  = Ok qr ->
  (forall rows,
     AccessStats._compute_access_lifetime int_of_str qr = Ok rows ->
     AccessStats.access_lifetime int_of_str search issn collection true
     = Ok qr /\
     AccessStats.access_lifetime int_of_str search issn collection false
     = Ok (VList rows)) /\
  (forall e raw,
     AccessStats._compute_access_lifetime int_of_str qr = Raise e ->
     AccessStats.access_lifetime int_of_str search issn collection raw
     = Raise e).
Proof.
  intros S. unfold AccessStats.access_lifetime. rewrite S. cbn [bind].
  split.
  - intros rows ->. split; reflexivity.
  - intros e raw ->. reflexivity.
Qed.

Lemma raw_still_reduces_witness :
  AccessStats.access_lifetime no_int_of_str
    (fun body parameters => Ok (VDict [("took", VInt 3)]))
    "0001-3765" "scl" true
  = Raise (KeyError "aggregations").
Proof.
  apply (raw_still_reduces no_int_of_str
           (fun body parameters => Ok (VDict [("took", VInt 3)]))
           "0001-3765" "scl" (VDict [("took", VInt 3)]) eq_refl).
  reflexivity.
Defined.

(** X11: no document is lost or counted twice by the language reducer:
    the four slots of a window year add up to the document counts of all
    the language buckets of that year's bucket. *)
Theorem language_slots_add_up
  (today : date) (qr : value) (n : Z) (items : list value) :
  year_buckets qr = Ok items ->
  forallb language_year_bucket items = true ->
  exists out,
    _compute_documents_languages_by_year today qr n = Ok out /\
    forall i item ls,
      year today - n < i <= year today ->
      last_bucket (str i) items = Some item ->
      languages_of item = Some ls ->
      exists pt en es other,
        In (str i, VDict [("pt", VInt pt); ("en", VInt en); ("es", VInt es);
                          ("other", VInt other)]) out /\
        pt + en + es + other = total (fun _ => true) ls.
Proof.
  intros Y K. eexists. split; [apply (languages_by_year _ _ _ _ Y K)|].
  intros i item ls Hi L E.
  pose proof (series_in breakdown_of (VDict no_langs) items today n i Hi) as S.
  rewrite L in S. unfold breakdown_of in S. rewrite E in S.
  do 4 eexists. split; [exact S | apply total_split].
Qed.

Lemma language_slots_add_up_witness :
  exists out pt en es other,
    _compute_documents_languages_by_year clock
      (aggregations language_buckets) 2 = Ok out /\
    In ("2026", VDict [("pt", VInt pt); ("en", VInt en); ("es", VInt es);
                       ("other", VInt other)]) out /\
    pt + en + es + other = 20.
Proof.
  destruct (language_slots_add_up clock (aggregations language_buckets) 2
              language_buckets eq_refl eq_refl) as [out [E F]].
  destruct (F 2026 _ _ ltac:(simpl; lia) eq_refl eq_refl)
    as [pt [en [es [other [I S]]]]].
  exists out, pt, en, es, other. repeat split; assumption.
Defined.

(** X12: only the buckets keyed by the [str] of a window year count.
    Taking every other bucket out of the response, a year outside the
    window or a key that is a number, changes the result of none of the
    three by-year reducers. *)
Theorem other_buckets_ignored
  (today : date) (qr trimmed : value) (n : Z) (items : list value) :
  year_buckets qr = Ok items ->
  year_buckets trimmed = Ok (filter (in_window today n) items) ->
  (forallb language_year_bucket items = true ->
   _compute_documents_languages_by_year today trimmed n
   = _compute_documents_languages_by_year today qr n) /\
  (n <> 0 -> forallb keyed items = true ->
   _compute_number_of_articles_by_year today trimmed n
   = _compute_number_of_articles_by_year today qr n) /\
  (n <> 0 -> forallb issue_bucket items = true ->
   _compute_number_of_issues_by_year today trimmed n
   = _compute_number_of_issues_by_year today qr n).
Proof.
  intros Y T. repeat split.
  - intros K.
    rewrite (languages_by_year _ _ _ _ Y K),
      (languages_by_year _ _ _ _ T (forallb_filter _ _ _ K)).
    now rewrite series_filter.
  - intros N K.
    rewrite (articles_normal _ _ _ _ N Y K),
      (articles_normal _ _ _ _ N T (forallb_filter _ _ _ K)).
    now rewrite series_filter.
  - intros N K.
    rewrite (issues_normal _ _ _ _ N Y K),
      (issues_normal _ _ _ _ N T (forallb_filter _ _ _ K)).
    now rewrite series_filter.
Qed.

Lemma other_buckets_ignored_witness :
  _compute_number_of_articles_by_year clock
    (aggregations [VDict [("key", VStr "2026"); ("doc_count", VInt 7);
                          ("id", VDict [("value", VInt 5)])]]) 3
  = _compute_number_of_articles_by_year clock
      (aggregations article_buckets) 3.
Proof.
  apply (other_buckets_ignored clock (aggregations article_buckets)
           (aggregations [VDict [("key", VStr "2026"); ("doc_count", VInt 7);
                                 ("id", VDict [("value", VInt 5)])]])
           3 article_buckets eq_refl eq_refl).
  - discriminate.
  - reflexivity.
Defined.

(** X13: a negative [years] leaves no window: the count reducers return
    the empty list and the language reducer the empty mapping, for every
    response whose year buckets have a key. *)
Theorem negative_years_empty
  (today : date) (qr : value) (n : Z) (items : list value) :
  n < 0 ->
  year_buckets qr = Ok items ->
  forallb keyed items = true ->
  _compute_number_of_articles_by_year today qr n = Ok (Series []) /\
  _compute_number_of_issues_by_year today qr n = Ok (Series []) /\
  _compute_documents_languages_by_year today qr n = Ok [].
Proof.
  intros N Y K.
  unfold _compute_number_of_articles_by_year,
    _compute_number_of_issues_by_year, _compute_documents_languages_by_year.
  destruct (Z.eqb_spec n 0) as [|_]; [lia|].
  rewrite Y, !window_empty by lia. cbn [bind].
  rewrite (for_each_ext _ (year_step articles_entry))
    by (intros; apply articles_year_step_eq).
  rewrite (for_each_ext issues_year_step (year_step issues_entry))
    by (intros; apply issues_year_step_eq).
  rewrite (for_each_ext languages_year_step (year_step languages_entry))
    by (intros; apply languages_year_step_eq).
  rewrite !year_step_keyed_empty by exact K.
  repeat split.
Qed.

Lemma negative_years_empty_witness :
  _compute_number_of_articles_by_year clock (aggregations article_buckets)
    (-2) = Ok (Series []) /\
  _compute_number_of_issues_by_year clock (aggregations article_buckets)
    (-2) = Ok (Series []) /\
  _compute_documents_languages_by_year clock (aggregations article_buckets)
    (-2) = Ok [].
Proof.
  apply (negative_years_empty clock (aggregations article_buckets) (-2)
           article_buckets); reflexivity.
Defined.

(** X14: the lookups take the first hit for a record.  When it is
    something else, a string or a list say, both raise [AttributeError],
    and so they do for a response that is not a record itself. *)
Theorem lookup_needs_records (qr : value) :
  (forall hit rest,
     hit_list qr = Some (hit :: rest) ->
     (forall f, hit <> VDict f) ->
     _compute_first_included_document_by_journal qr = Raise AttributeError /\
     _compute_last_included_document_by_journal qr = Raise AttributeError) /\
  ((forall d, qr <> VDict d) ->
   _compute_first_included_document_by_journal qr = Raise AttributeError /\
   _compute_last_included_document_by_journal qr = Raise AttributeError).
Proof.
  split.
  - intros hit rest H N.
    rewrite (first_included_document _ _ H), (last_included_document _ _ H).
    destruct hit; try (split; reflexivity). now destruct (N d).
  - intros N. destruct qr; try (split; reflexivity). now destruct (N d).
Qed.

Lemma lookup_needs_records_witness :
  _compute_first_included_document_by_journal (hits [VStr "S0001"])
  = Raise AttributeError /\
  _compute_last_included_document_by_journal (VList [])
  = Raise AttributeError.
Proof.
  split.
  - apply (proj1 (lookup_needs_records (hits [VStr "S0001"]))
             (VStr "S0001") [] eq_refl).
    discriminate.
  - apply (proj2 (lookup_needs_records (VList []))). discriminate.
Defined.

(** X15: one year bucket without a usable key ends a by-year reduction,
    in or out of the window: after well formed buckets, the first bucket
    that has no [key] ([KeyError]) or a list or record for key
    ([TypeError]) makes each of the three reducers raise just that. *)
Theorem bucket_without_key_aborts
  (today : date) (qr : value) (n : Z) (good rest : list value)
  (bad : value) (e : exn) :
  year_buckets qr = Ok (good ++ bad :: rest)%list ->
  (k <- getitem bad "key" ;; dict_key k) = Raise e ->
  (forallb language_year_bucket good = true ->
   _compute_documents_languages_by_year today qr n = Raise e) /\
  (n <> 0 -> forallb keyed good = true ->
   _compute_number_of_articles_by_year today qr n = Raise e) /\
  (n <> 0 -> forallb issue_bucket good = true ->
   _compute_number_of_issues_by_year today qr n = Raise e).
Proof.
  intros Y B.
  assert (ND : forall zero, NoDup (map fst (window today n zero)))
    by (intros zero; rewrite window_entries;
        apply str_keys_nodup, year_window_nodup).
  repeat split.
  - intros K. unfold _compute_documents_languages_by_year.
    rewrite Y. cbn [bind].
    rewrite (for_each_ext _ (year_step languages_entry))
      by (intros; apply languages_year_step_eq).
    apply (year_loop_aborts languages_entry breakdown_of); auto.
    + now apply language_bucket_keyed.
    + intros item Hin. apply languages_entry_ok.
      eapply forallb_In; eassumption.
  - intros N K. unfold _compute_number_of_articles_by_year.
    destruct (Z.eqb_spec n 0) as [|_]; [contradiction|].
    rewrite Y. cbn [bind].
    rewrite (for_each_ext _ (year_step articles_entry))
      by (intros; apply articles_year_step_eq).
    rewrite (year_loop_aborts articles_entry doc_count_of good rest bad _ e);
      auto.
    intros item Hin. apply articles_entry_ok. eapply forallb_In; eassumption.
  - intros N K. unfold _compute_number_of_issues_by_year.
    destruct (Z.eqb_spec n 0) as [|_]; [contradiction|].
    rewrite Y. cbn [bind].
    rewrite (for_each_ext _ (year_step issues_entry))
      by (intros; apply issues_year_step_eq).
    rewrite (year_loop_aborts issues_entry (nested_metric "issue")
               good rest bad _ e); auto.
    + now apply issue_bucket_keyed.
    + intros item Hin. apply issues_entry_ok. eapply forallb_In; eassumption.
Qed.

Lemma bucket_without_key_aborts_witness :
  _compute_number_of_articles_by_year clock
    (aggregations (article_buckets ++ [VDict [("doc_count", VInt 1)]])) 3
  = Raise (KeyError "key").
Proof.
  apply (bucket_without_key_aborts clock
           (aggregations (article_buckets ++ [VDict [("doc_count", VInt 1)]]))
           3 article_buckets [] (VDict [("doc_count", VInt 1)])
           (KeyError "key") eq_refl eq_refl).
  - discriminate.
  - reflexivity.
Defined.
